(** * Prompt pipeline of llm-learning/labs/02-prompt-engineering

    A shallow embedding of [advanced_prompting.py] (input validator, output
    validator, generation orchestrator, A/B selector) and of
    [prompt_templates.py] (the template library), with the properties of
    the pipeline stated and proved over it.

    Python [str] values are Rocq strings whose characters are code points
    below 256; the builtins the code calls on them ([strip], [startswith],
    [endswith], slicing, [lower], [in]) are defined in [PyStr] with the
    behaviour of CPython on that range. *)

From Stdlib Require Import String Ascii ZArith QArith List Lia Bool.
From stdpp Require Import base strings list gmap sorting.

Local Open Scope string_scope.
Local Set Warnings "-register-all".
#[local] Arguments String.append : simpl nomatch.

(** ** Python string builtins *)

Module PyStr.

(** [str.isspace] on one code point: TAB..CR, FS..US, SPACE, NEL, NBSP. *)
Definition isspace (c : ascii) : bool :=
  let n := nat_of_ascii c in
  (Nat.leb 9 n && Nat.leb n 13) || (Nat.leb 28 n && Nat.leb n 32)
  || Nat.eqb n 133 || Nat.eqb n 160.

Definition is_empty (s : string) : bool :=
  match s with EmptyString => true | String _ _ => false end.

Fixpoint lstrip (s : string) : string :=
  match s with
  | EmptyString => EmptyString
  | String c r => if isspace c then lstrip r else s
  end.

Fixpoint rstrip (s : string) : string :=
  match s with
  | EmptyString => EmptyString
  | String c r =>
      let r' := rstrip r in
      if is_empty r' && isspace c then EmptyString else String c r'
  end.

(** [s.strip()] *)
Definition strip (s : string) : string := lstrip (rstrip s).

(** [s.startswith(p)] *)
Fixpoint startswith (p s : string) : bool :=
  match p, s with
  | EmptyString, _ => true
  | String a p', String b s' => Ascii.eqb a b && startswith p' s'
  | String _ _, EmptyString => false
  end.

(** [s[n:]] *)
Fixpoint slice_from (n : nat) (s : string) : string :=
  match n, s with
  | O, _ => s
  | S n', String _ r => slice_from n' r
  | S _, EmptyString => EmptyString
  end.

(** [s[:n]] for [n >= 0] *)
Fixpoint slice_to (n : nat) (s : string) : string :=
  match n, s with
  | S n', String c r => String c (slice_to n' r)
  | _, _ => EmptyString
  end.

(** [s[:-n]] for [n > 0]: everything but the last [n] characters. *)
Definition slice_drop_last (n : nat) (s : string) : string :=
  slice_to (String.length s - n) s.

(** [s.endswith(p)] *)
Definition endswith (p s : string) : bool :=
  Nat.leb (String.length p) (String.length s)
  && String.eqb (slice_from (String.length s - String.length p) s) p.

(** [str.lower] on one code point: A..Z and the Latin-1 capitals
    (U+00C0..U+00DE without the multiplication sign U+00D7). *)
Definition lower_char (c : ascii) : ascii :=
  let n := nat_of_ascii c in
  if (Nat.leb 65 n && Nat.leb n 90)
     || (Nat.leb 192 n && Nat.leb n 222 && negb (Nat.eqb n 215))
  then ascii_of_nat (n + 32) else c.

Fixpoint lower (s : string) : string :=
  match s with
  | EmptyString => EmptyString
  | String c r => String (lower_char c) (lower r)
  end.

(** [p in s] for two strings: [p] occurs in [s] as a substring. *)
Fixpoint contains (p s : string) : bool :=
  startswith p s
  || match s with
     | EmptyString => false
     | String _ r => contains p r
     end.

(** The one-character string holding a line feed. *)
Definition nl : string := String "010"%char EmptyString.

(** Spec side: every character of [s] is whitespace (so also when [s] is
    empty). *)
Fixpoint all_whitespace (s : string) : bool :=
  match s with
  | EmptyString => true
  | String c r => isspace c && all_whitespace r
  end.

End PyStr.

(** ** Python values, exceptions and the collaborators outside the repository *)

(** A parsed JSON document, as [json.load] / [json.loads] return it: a
    [dict] keeps the order of the document and has distinct keys. *)
Inductive json : Type :=
| JNull
| JBool (b : bool)
| JNum (q : Q)
| JStr (s : string)
| JList (l : list json)
| JDict (items : list (string * json)).

(** The payload of the [ValueError]s the two files raise; the f-string
    text is kept as the constructor, its interpolated data as arguments. *)
Inductive message : Type :=
| MissingRequiredFields (missing : list string)
| EmptyValues (empty : list string)
| SuspiciousInput (key : string)
| InvalidJSONResponse
| MissingOutputFields (missing : list string)
| TemplateNotFound (name : string)
| FailedToLoadTemplate (name : string)
| ChrOutOfRange.

Inductive exn : Type :=
| ValueError (msg : message)
| TypeError
| KeyError
| IndexError
| AttributeError
| ZeroDivisionError
| FileNotFoundError
| JSONDecodeError
| BackendError (msg : string).

(** A computation that returns or raises. *)
Inductive res (A : Type) : Type :=
| Ok (a : A)
| Raise (e : exn).
Arguments Ok {A} a.
Arguments Raise {A} e.

Definition bind {A B} (m : res A) (k : A -> res B) : res B :=
  match m with
  | Ok a => k a
  | Raise e => Raise e
  end.

Notation "'let!' x ':=' m 'in' k" := (bind m (fun x => k))
  (at level 10, x name, m at level 100, k at level 200).

(** A value of a variable binding ([Dict[str, Any]]).  The validator
    observes two things of a value: whether it is a [str], and its
    [str(v)]; a value that is not a [str] is kept as its [str(v)]. *)
Inductive value : Type :=
| VStr (s : string)
| VObj (shown : string).

Definition str (v : value) : string :=
  match v with
  | VStr s => s
  | VObj shown => shown
  end.

(** A [dict] with [str] keys in insertion order. *)
Definition dict (V : Type) : Type := list (string * V).

Definition dict_has {V} (k : string) (d : dict V) : bool :=
  existsb (fun kv => String.eqb k (fst kv)) d.

Fixpoint dict_get {V} (k : string) (d : dict V) : option V :=
  match d with
  | [] => None
  | (k', v) :: d' => if String.eqb k k' then Some v else dict_get k d'
  end.

Definition is_nil {A} (l : list A) : bool :=
  match l with [] => true | _ :: _ => false end.

(** What the code uses of langchain's [ChatPromptTemplate], of the
    interpreter and of the standard library.  [None] stands for a raised
    exception where the caller does not look at its kind. *)
Class Externals : Type := {
  ChatPromptTemplate : Type;
  BaseMessage : Type;
  (** [ChatPromptTemplate.from_messages(messages)] on (role, content) pairs *)
  from_messages : list (json * json) -> option ChatPromptTemplate;
  (** [bool(template)] *)
  template_bool : ChatPromptTemplate -> bool;
  (** [template.input_variables] *)
  input_variables : ChatPromptTemplate -> list string;
  (** [template.format_messages] applied to the binding as keyword arguments *)
  format_messages : ChatPromptTemplate -> dict value -> res (list BaseMessage);
  (** [json.loads]; [None] is [json.JSONDecodeError] *)
  json_loads : string -> option json;
  (** the builtin [hash] on [str], fixed for one interpreter process *)
  hash : string -> Z
}.

(** What one call of [generate] meets outside the process: the reply of
    the model for the messages and parameters sent to it (through a fresh
    Gemini client, or through [self.llm]), and the time the call took. *)
Record Backend `{Externals} : Type := {
  gemini_invoke : list BaseMessage -> Q -> Z -> res string;
  llm_invoke : list BaseMessage -> Q -> Z -> res string;
  elapsed_ms : Z
}.

(** ** [prompt_templates.py]: the template library *)

Module PromptTemplates.
Import PyStr.

(** [self.template_metadata[name]] *)
Record TemplateInfo : Type := {
  pattern : json;
  description : json;
  info_input_variables : json
}.

Section Library.
Context `{Externals}.

Record PromptLibrary : Type := {
  templates : gmap string ChatPromptTemplate;
  template_metadata : gmap string TemplateInfo
}.

(** The definition source as [open] and [json.load] find it. *)
Inductive source : Type :=
| Absent
| Malformed
| Document (template_data : json).

(** [for x in j]: a list yields its elements, a dict its keys, a string
    its characters; anything else is not iterable. *)
Definition py_iter (j : json) : option (list json) :=
  match j with
  | JList l => Some l
  | JDict items => Some (map (fun kv => JStr (fst kv)) items)
  | JStr s => Some (map (fun c => JStr (String c EmptyString)) (list_ascii_of_string s))
  | _ => None
  end.

(** ["\n".join(content)]: every element must be a [str]. *)
Fixpoint join_lines (content : list json) : option string :=
  match content with
  | [] => Some ""
  | JStr s :: rest =>
      match rest with
      | [] => Some s
      | _ :: _ => option_map (fun t => s +:+ String "010"%char t) (join_lines rest)
      end
  | _ :: _ => None
  end.

(** The body of the inner loop: one (role, content) pair for [msg].  A
    [msg] that is not a dict has no ["role"] and ["content"] keys to read:
    the membership test or the subscript raises, and the enclosing
    [except Exception] turns either into the same [ValueError]. *)
Definition build_message (msg : json) : option (json * json) :=
  match msg with
  | JDict items =>
      match dict_get "role" items, dict_get "content" items with
      | Some role, Some content =>
          match content with
          | JList parts => option_map (fun c => (role, JStr c)) (join_lines parts)
          | _ => Some (role, content)
          end
      | _, _ => None
      end
  | _ => None
  end.

Fixpoint build_messages (msgs : list json) : option (list (json * json)) :=
  match msgs with
  | [] => Some []
  | msg :: rest =>
      match build_message msg with
      | None => None
      | Some m => option_map (cons m) (build_messages rest)
      end
  end.

Definition info_of (config : dict json) : TemplateInfo :=
  {| pattern := default (JStr "Unknown") (dict_get "pattern" config);
     description := default (JStr "No description") (dict_get "description" config);
     info_input_variables := default (JList []) (dict_get "input_variables" config) |}.

(** The (role, content) pairs of [config["messages"]], handed to
    [ChatPromptTemplate.from_messages]. *)
Definition build_template (msgs : json) : option ChatPromptTemplate :=
  match py_iter msgs with
  | None => None
  | Some l =>
      match build_messages l with
      | None => None
      | Some messages => from_messages messages
      end
  end.

(** One turn of the loop of [_load_templates] over [template_data.items()]:
    the library after it, and whether it raised.  The metadata is stored
    before the messages are looked at, the template after they were built.
    A [config] that is not a dict raises before anything is stored. *)
Definition load_entry (template_name : string) (config : json)
    (self : PromptLibrary) : PromptLibrary * res unit :=
  match config with
  | JDict items =>
      match dict_get "messages" items with
      | None => (self, Raise (ValueError (FailedToLoadTemplate template_name)))
      | Some msgs =>
          let self1 :=
            {| templates := templates self;
               template_metadata :=
                 <[template_name := info_of items]> (template_metadata self) |} in
          match build_template msgs with
          | None => (self1, Raise (ValueError (FailedToLoadTemplate template_name)))
          | Some t =>
              ({| templates := <[template_name := t]> (templates self1);
                  template_metadata := template_metadata self1 |}, Ok tt)
          end
      end
  | _ => (self, Raise (ValueError (FailedToLoadTemplate template_name)))
  end.

Fixpoint load_entries (items : dict json) (self : PromptLibrary)
    : PromptLibrary * res unit :=
  match items with
  | [] => (self, Ok tt)
  | (template_name, config) :: rest =>
      match load_entry template_name config self with
      | (self', Ok _) => load_entries rest self'
      | (self', Raise e) => (self', Raise e)
      end
  end.

(** [PromptLibrary._load_templates] *)
Definition _load_templates (file : source) (self : PromptLibrary)
    : PromptLibrary * res unit :=
  match file with
  | Absent => (self, Raise FileNotFoundError)
  | Malformed => (self, Raise JSONDecodeError)
  | Document (JDict items) => load_entries items self
  | Document _ => (self, Raise AttributeError)
  end.

Definition cleared : PromptLibrary :=
  {| templates := ∅; template_metadata := ∅ |}.

(** [PromptLibrary.__init__]: the object exists for the caller only when
    the constructor returns. *)
Definition init (file : source) : res PromptLibrary :=
  match file with
  | Absent => Raise FileNotFoundError
  | _ =>
      match _load_templates file cleared with
      | (self, Ok _) => Ok self
      | (_, Raise e) => Raise e
      end
  end.

(** [PromptLibrary.reload_templates] *)
Definition reload_templates (file : source) (self : PromptLibrary)
    : PromptLibrary * res unit :=
  _load_templates file cleared.

(** [PromptLibrary.get_template] *)
Definition get_template (self : PromptLibrary) (name : string)
    : res ChatPromptTemplate :=
  match templates self !! name with
  | None => Raise (ValueError (TemplateNotFound name))
  | Some t => Ok t
  end.

(** [self.templates.keys()] *)
Definition keys (self : PromptLibrary) : list string :=
  (map_to_list (templates self)).*1.

(** [sorted] on a list of [str] *)
Definition sorted (l : list string) : list string := merge_sort String.le l.

(** [PromptLibrary.list_templates]; [None] and the empty string are the
    falsy categories. *)
Definition list_templates (self : PromptLibrary) (category : option string)
    : list string :=
  match category with
  | Some c =>
      if negb (is_empty c)
      then sorted (List.filter (startswith (lower c)) (keys self))
      else sorted (keys self)
  | None => sorted (keys self)
  end.

End Library.

(** The category of a name in [list_categories]:
    [name.split("_")[0] if "_" in name else name]. *)
Fixpoint category_of (name : string) : string :=
  match name with
  | EmptyString => EmptyString
  | String c r => if Ascii.eqb c "_"%char then EmptyString else String c (category_of r)
  end.

End PromptTemplates.

(** ** [advanced_prompting.py] *)

(** *** Output validator: [OutputValidator.clean_json_response] *)

Module OutputValidator.
Import PyStr.

Definition fence : string := "```".
Definition json_fence : string := "```json".

Definition clean_json_response (response : string) : string :=
  let response := strip response in
  let response :=
    if startswith json_fence response then slice_from 7 response
    else if startswith fence response then slice_from 3 response
    else response in
  let response :=
    if endswith fence response then slice_drop_last 3 response
    else response in
  strip response.

(** A fenced wrapping of [c]: the opening marker with its language tag,
    the content, the closing marker. *)
Definition fenced (tag c : string) : string := fence +:+ tag +:+ c +:+ fence.

(** [f in data] for a parsed document: key of a dict, element of a list,
    substring of a string; [None], a bool or a number is not iterable. *)
Definition py_in (f : string) (data : json) : res bool :=
  match data with
  | JDict items => Ok (dict_has f items)
  | JList l =>
      Ok (existsb (fun x => match x with JStr s => String.eqb f s | _ => false end) l)
  | JStr s => Ok (contains f s)
  | _ => Raise TypeError
  end.

(** [[f for f in required_fields if f not in data]] *)
Fixpoint missing_in (data : json) (required_fields : list string)
    : res (list string) :=
  match required_fields with
  | [] => Ok []
  | f :: rest =>
      let! present := py_in f data in
      let! missing := missing_in data rest in
      Ok (if present then missing else f :: missing)
  end.

(** [OutputValidator.validate_json]; [required_fields] is [None] or a list,
    and an empty list is falsy like [None]. *)
Definition validate_json `{Externals} (response : string)
    (required_fields : option (list string)) : res json :=
  let cleaned_response := clean_json_response response in
  match json_loads cleaned_response with
  | None => Raise (ValueError InvalidJSONResponse)
  | Some data =>
      match required_fields with
      | Some ((_ :: _) as fields) =>
          let! missing := missing_in data fields in
          if negb (is_nil missing)
          then Raise (ValueError (MissingOutputFields missing))
          else Ok data
      | _ => Ok data
      end
  end.

End OutputValidator.

(** *** Input validator: [InputValidator.validate_variables] *)

Module InputValidator.
Import PyStr.

Definition injection_phrase : string := "ignore previous instructions".

(** [[f for f in required_fields if f not in variables]] *)
Definition missing_fields (variables : dict value) (required_fields : list string)
    : list string :=
  List.filter (fun f => negb (dict_has f variables)) required_fields.

(** [[k for k, v in variables.items() if not str(v).strip()]] *)
Definition empty_fields (variables : dict value) : list string :=
  map fst (List.filter (fun kv => is_empty (strip (str (snd kv)))) variables).

(** The injection loop over [variables.items()]: the first [str] value
    whose lower-cased text holds the phrase raises. *)
Fixpoint check_injection (items : dict value) : res unit :=
  match items with
  | [] => Ok tt
  | (key, VStr s) :: rest =>
      if contains injection_phrase (lower s)
      then Raise (ValueError (SuspiciousInput key))
      else check_injection rest
  | (_, VObj _) :: rest => check_injection rest
  end.

Definition validate_variables (variables : dict value)
    (required_fields : list string) : res (dict value) :=
  let missing := missing_fields variables required_fields in
  if negb (is_nil missing)
  then Raise (ValueError (MissingRequiredFields missing))
  else
    let empty := empty_fields variables in
    if negb (is_nil empty)
    then Raise (ValueError (EmptyValues empty))
    else
      let! _ := check_injection variables in
      Ok variables.

End InputValidator.

(** *** Configuration presets and the orchestrator *)

Module AdvancedPromptSystem.
Import PyStr PromptTemplates.

Record Config : Type := {
  temperature : Q;
  max_tokens : Z;
  description : string
}.

Definition factual : Config :=
  {| temperature := 0; max_tokens := 500;
     description := "Deterministic, factual responses" |}.
Definition balanced : Config :=
  {| temperature := 7 # 10; max_tokens := 1000;
     description := "Balanced creativity and consistency" |}.
Definition creative : Config :=
  {| temperature := 1; max_tokens := 1500;
     description := "Maximum creativity" |}.

Definition CONFIGS : gmap string Config :=
  <["factual" := factual]> (<["balanced" := balanced]> (<["creative" := creative]> ∅)).

(** [result["metadata"]["validation"]] *)
Inductive validation : Type :=
| Passed
| Failed (e : message).

Record Metadata : Type := {
  template : string;
  config : string;
  model : string;
  latency_ms : Z;
  validation_status : option validation
}.

(** [result["ab_test_info"]]; [test_group] is the code point of the
    one-character string that [chr] returns. *)
Record ABTestInfo : Type := {
  user_id : string;
  assigned_version : string;
  test_group : Z
}.

Record Result : Type := {
  response : string;
  metadata : Metadata;
  parsed_json : option json;
  ab_test_info : option ABTestInfo
}.


Definition res_map {A B} (f : A -> B) (m : res A) : res B :=
  match m with
  | Ok a => Ok (f a)
  | Raise e => Raise e
  end.

(** A parsed document that is [None], a bool or a number. *)
Definition is_scalar (data : json) : bool :=
  match data with
  | JNull | JBool _ | JNum _ => true
  | _ => false
  end.

Section System.
Context `{Externals}.

Record System : Type := {
  model_name : string;
  prompt_library : PromptLibrary
}.

(** [CONFIGS.get(config_name, CONFIGS["balanced"])] *)
Definition resolve_config (config_name : string) : Config :=
  default balanced (CONFIGS !! config_name).

(** The model call of [generate], on either branch of the test on the
    model name. *)
Definition invoke (self : System) (backend : Backend)
    (messages : list BaseMessage) (cfg : Config) : res string :=
  if contains "gemini" (lower (model_name self))
  then gemini_invoke backend messages (temperature cfg) (max_tokens cfg)
  else llm_invoke backend messages (temperature cfg) (max_tokens cfg).

(** The [try] / [except ValueError] around [validate_json]: a [ValueError]
    becomes a status, any other exception goes on to the caller. *)
Definition validated (result : Result) (required_output_fields : option (list string))
    : res Result :=
  let md := metadata result in
  match OutputValidator.validate_json (response result) required_output_fields with
  | Ok parsed =>
      Ok {| response := response result;
            metadata := {| template := template md; config := config md;
                           model := model md; latency_ms := latency_ms md;
                           validation_status := Some Passed |};
            parsed_json := Some parsed;
            ab_test_info := ab_test_info result |}
  | Raise (ValueError e) =>
      Ok {| response := response result;
            metadata := {| template := template md; config := config md;
                           model := model md; latency_ms := latency_ms md;
                           validation_status := Some (Failed e) |};
            parsed_json := parsed_json result;
            ab_test_info := ab_test_info result |}
  | Raise e => Raise e
  end.

(** [AdvancedPromptSystem.generate] *)
Definition generate (self : System) (backend : Backend)
    (template_name : string) (variables : dict value) (config_name : string)
    (validate_output : bool) (required_output_fields : option (list string))
    : res Result :=
  let! tpl := get_template (prompt_library self) template_name in
  if negb (template_bool tpl)
  then Raise (ValueError (TemplateNotFound template_name))
  else
    let required_vars := input_variables tpl in
    let! _ := InputValidator.validate_variables variables required_vars in
    let cfg := resolve_config config_name in
    let! messages := format_messages tpl variables in
    let! response_text := invoke self backend messages cfg in
    let result :=
      {| response := response_text;
         metadata := {| template := template_name; config := config_name;
                        model := model_name self;
                        latency_ms := elapsed_ms backend;
                        validation_status := None |};
         parsed_json := None;
         ab_test_info := None |} in
    if validate_output
    then validated result required_output_fields
    else Ok result.

(** [chr(i)]: the code point [i], which must be below 0x110000. *)
Definition chr (i : Z) : res Z :=
  if ((0 <=? i) && (i <? 1114112))%Z then Ok i
  else Raise (ValueError ChrOutOfRange).

(** [hash(user_id) % len(versions)] and [versions[version_idx]] *)
Definition assign (user : string) (versions : list string) : res (Z * string) :=
  match versions with
  | [] => Raise ZeroDivisionError
  | _ :: _ =>
      let version_idx := (hash user `mod` Z.of_nat (length versions))%Z in
      match versions !! Z.to_nat version_idx with
      | None => Raise IndexError
      | Some assigned => Ok (version_idx, assigned)
      end
  end.

(** [AdvancedPromptSystem.ab_test] *)
Definition ab_test (self : System) (backend : Backend)
    (user : string) (base_template : string) (variables : dict value)
    (versions : list string) (config_name : string) : res Result :=
  let! a := assign user versions in
  let version_idx := fst a in
  let assigned := snd a in
  let template_name := base_template +:+ "_" +:+ assigned in
  let! result :=
    generate self backend template_name variables config_name true None in
  let! group := chr (65 + version_idx) in
  Ok {| response := response result;
        metadata := metadata result;
        parsed_json := parsed_json result;
        ab_test_info :=
          Some {| user_id := user; assigned_version := assigned;
                  test_group := group |} |}.

End System.

End AdvancedPromptSystem.

(** ** An instance of the collaborators, to run the definitions on examples *)

Module Example.

(** Decimal digits without a sign; a leading zero only for ["0"]. *)
Fixpoint digits_value (acc : Z) (s : string) : option Z :=
  match s with
  | EmptyString => Some acc
  | String c r =>
      let n := nat_of_ascii c in
      if Nat.leb 48 n && Nat.leb n 57
      then digits_value (10 * acc + Z.of_nat (n - 48)) r
      else None
  end.

(** [json.loads] on the scalar documents [null], [true], [false] and the
    unsigned integers; every other text is rejected by this instance. *)
Definition scalar_loads (s : string) : option json :=
  if String.eqb s "null" then Some JNull
  else if String.eqb s "true" then Some (JBool true)
  else if String.eqb s "false" then Some (JBool false)
  else
    match s with
    | EmptyString => None
    | String "0" (String _ _) => None
    | _ => option_map (fun z => JNum (inject_Z z)) (digits_value 0 s)
    end.

(** Templates are the bare (role, content) pairs: no placeholder is
    interpreted, and a template is truthy when it has a message. *)
#[local] Instance externals : Externals := {|
  ChatPromptTemplate := list (json * json);
  BaseMessage := json * json;
  from_messages := Some;
  template_bool := fun t => negb (is_nil t);
  input_variables := fun _ => [];
  format_messages := fun t _ => Ok t;
  json_loads := scalar_loads;
  hash := fun s => Z.of_nat (String.length s)
|}.

(** A backend that answers every call with the same text. *)
Definition replies (text : string) : Backend :=
  {| gemini_invoke := fun _ _ _ => Ok text;
     llm_invoke := fun _ _ _ => Ok text;
     elapsed_ms := 12 |}.

(** Documents and libraries for the examples. *)
Definition msg (role content : string) : json :=
  JDict [("role", JStr role); ("content", JStr content)].

Definition entry (messages : list json) : json :=
  JDict [("messages", JList messages)].

Definition first_source : PromptTemplates.source :=
  PromptTemplates.Document
    (JDict [("sentiment_v1", entry [msg "system" "Classify."; msg "user" "{text}"]);
            ("sentiment_v3", entry [msg "system" "Answer in JSON."; msg "user" "{text}"]);
            ("sentimental_v1", entry [msg "user" "{text}"]);
            ("support_v1", entry [msg "user" "{query}"])]).



Definition first_library : PromptTemplates.PromptLibrary :=
  fst (PromptTemplates._load_templates first_source PromptTemplates.cleared).


Definition system : AdvancedPromptSystem.System :=
  {| AdvancedPromptSystem.model_name := "gemini-2.5-flash";
     AdvancedPromptSystem.prompt_library := first_library |}.

End Example.

(** ** [prompt_templates.py]: queries, export and the module helpers *)

Module LibraryQueries.
Import PyStr PromptTemplates.

(** What [PromptLibrary.validate_variables] does: it returns [True], or
    raises the [ValueError] naming the missing variables, the
    [ValueError] of an unknown template, or a [TypeError]. *)
Inductive check : Type :=
| AllProvided
| MissingVariables (missing : gset string)
| UnknownTemplate
| NotStrings.

(** [set(x)] for a parsed value [x] whose members must all be [str] for
    the caller to go on: the elements of a list, the characters of a
    string, the keys of a dict.  A list with a member that is no [str]
    ends in a [TypeError] either way: [set] rejects a list or a dict as
    member, and a number, a bool or [None] is a member that is never
    provided and that [', '.join] rejects.  [None] stands for that
    [TypeError], and for the one of a value that is not iterable. *)
Fixpoint str_members (l : list json) : option (list string) :=
  match l with
  | [] => Some []
  | JStr s :: rest => option_map (cons s) (str_members rest)
  | _ :: _ => None
  end.

Definition str_set (x : json) : option (gset string) :=
  match x with
  | JList l => option_map list_to_set (str_members l)
  | JStr s =>
      Some (list_to_set
              (map (fun c => String c EmptyString) (list_ascii_of_string s)))
  | JDict items => Some (list_to_set (map fst items))
  | _ => None
  end.

(** [categories[category].append(name)] after the category was created
    when absent. *)
Definition add_to_category (categories : gmap string (list string))
    (name : string) : gmap string (list string) :=
  let category := category_of name in
  <[category := (default [] (categories !! category) ++ [name])%list]> categories.

Section Queries.
Context `{Externals}.

(** [PromptLibrary.get_template_info] *)
Definition get_template_info (self : PromptLibrary) (name : string)
    : res TemplateInfo :=
  match template_metadata self !! name with
  | None => Raise (ValueError (TemplateNotFound name))
  | Some info => Ok info
  end.

(** [PromptLibrary.get_input_variables] *)
Definition get_input_variables (self : PromptLibrary) (name : string)
    : res json :=
  let! info := get_template_info self name in
  Ok (info_input_variables info).

(** [PromptLibrary.list_categories]: the result dict in its insertion
    order, which is the order of the sorted category names (the keys are
    distinct, so sorting the items compares keys only). *)
Definition list_categories (self : PromptLibrary)
    : list (string * list string) :=
  let categories := foldl add_to_category ∅ (keys self) in
  map (fun k => (k, sorted (default [] (categories !! k))))
      (sorted (map fst (map_to_list categories))).

(** [PromptLibrary.validate_variables] *)
Definition validate_variables (self : PromptLibrary) (name : string)
    (variables : dict value) : check :=
  match get_input_variables self name with
  | Raise _ => UnknownTemplate
  | Ok input_vars =>
      match str_set input_vars with
      | None => NotStrings
      | Some required =>
          let provided : gset string := list_to_set (map fst variables) in
          let missing := required ∖ provided in
          if decide (missing = ∅) then AllProvided
          else MissingVariables missing
      end
  end.


(** The dict comprehension of [list_all_templates] over the names. *)
Fixpoint infos (lib : PromptLibrary) (names : list string)
    : res (list (string * TemplateInfo)) :=
  match names with
  | [] => Ok []
  | name :: rest =>
      let! info := get_template_info lib name in
      let! others := infos lib rest in
      Ok ((name, info) :: others)
  end.

(** [list_all_templates] *)
Definition list_all_templates (file : source)
    : res (list (string * TemplateInfo)) :=
  let! lib := init file in
  infos lib (list_templates lib None).

End Queries.

End LibraryQueries.

(** ** [advanced_prompting.py]: the interactive flows *)

Module Menu.
Import PyStr PromptTemplates AdvancedPromptSystem.

(** [input(...).strip() or default] on the line the user typed. *)
Definition stripped_or (default line : string) : string :=
  let s := strip line in
  if is_empty s then default else s.

Definition config_map : gmap string string :=
  <["1" := "factual"]> (<["2" := "balanced"]> (<["3" := "creative"]> ∅)).

(** [get_config_choice] *)
Definition get_config_choice (line : string) : string :=
  let choice := stripped_or "2" line in
  default "balanced" (config_map !! choice).

(** [get_template_choice]; the line is read in the first two branches
    only. *)
Definition get_template_choice (use_case line : string) : string :=
  if String.eqb use_case "support"
  then "support_v" +:+ stripped_or "3" line
  else if String.eqb use_case "sentiment"
  then "sentiment_v" +:+ stripped_or "3" line
  else "sentiment_v3".

(** The arguments a flow hands to [generate]. *)
Record Request : Type := {
  template_name : string;
  config_name : string;
  variables : dict value;
  should_validate : bool;
  required_fields : option (list string)
}.

(** [x in [a, b]] for strings *)
Definition among (x : string) (l : list string) : bool :=
  existsb (String.eqb x) l.

(** The part of [customer_support_flow] before the call: the lines are
    those typed at the prompts in order; the last two are read for
    [support_v2] and [support_v3] only. *)
Definition customer_support_request
    (template_line config_line query_line tier_line issues_line : string)
    : Request :=
  let template_name := get_template_choice "support" template_line in
  let config_name := get_config_choice config_line in
  let query := stripped_or "How do I reset my password?" query_line in
  let variables :=
    if among template_name ["support_v2"; "support_v3"]
    then
      let user_tier := stripped_or "free" tier_line in
      let previous_issues := stripped_or "None" issues_line in
      [("query", VStr query); ("user_tier", VStr user_tier);
       ("previous_issues", VStr previous_issues)]
    else [("query", VStr query)] in
  let should_validate := String.eqb template_name "support_v3" in
  {| template_name := template_name;
     config_name := config_name;
     variables := variables;
     should_validate := should_validate;
     required_fields :=
       if should_validate then Some ["response"; "action"; "priority"]
       else None |}.

(** The part of [sentiment_analysis_flow] before the call. *)
Definition sentiment_analysis_request
    (template_line config_line text_line : string) : Request :=
  let template_name := get_template_choice "sentiment" template_line in
  let config_name := get_config_choice config_line in
  let text :=
    stripped_or "This product is amazing! Best purchase ever." text_line in
  {| template_name := template_name;
     config_name := config_name;
     variables := [("text", VStr text)];
     should_validate := among template_name ["sentiment_v2"; "sentiment_v3"];
     required_fields :=
       if String.eqb template_name "sentiment_v2"
       then Some ["sentiment"; "confidence"]
       else if String.eqb template_name "sentiment_v3"
       then Some ["sentiment"; "confidence"; "reasoning"]
       else None |}.

Section Flows.
Context `{Externals}.

(** The call of a flow; what it prints afterwards is left out. *)
Definition run (system : System) (backend : Backend) (request : Request)
    : res Result :=
  generate system backend (template_name request) (variables request)
    (config_name request) (should_validate request) (required_fields request).

(** The call of [ab_testing_flow]: user id, text and config are typed in
    this order. *)
Definition ab_testing_call (system : System) (backend : Backend)
    (user_line text_line config_line : string) : res Result :=
  let user := stripped_or "user123" user_line in
  let text := stripped_or "The service was okay, nothing special." text_line in
  let config_name := get_config_choice config_line in
  ab_test system backend user "sentiment" [("text", VStr text)]
    ["v2"; "v3"] config_name.

End Flows.

End Menu.

(** Spec side: [t] is a contiguous part of [s]. *)
Definition part_of (t s : string) : Prop :=
  exists before after, s = before +:+ t +:+ after.

(** A document whose third entry has a message list that cannot be
    iterated. *)
Module Example2.



(** An entry that declares its input variables. *)
Definition blog_items : dict json :=
  [("blog_v1",
    JDict [("pattern", JStr "Zero-Shot");
           ("input_variables", JList [JStr "topic"; JStr "tone"]);
           ("messages", JList [Example.msg "user" "{topic} in a {tone} tone"])]);
   ("blog_v2",
    JDict [("input_variables", JList [JStr "topic"]);
           ("messages", JList [Example.msg "user" "{topic}"])])].

Definition blog_source : PromptTemplates.source :=
  PromptTemplates.Document (JDict blog_items).

Definition blog_library : PromptTemplates.PromptLibrary :=
  fst (PromptTemplates._load_templates (H := Example.externals)
         blog_source PromptTemplates.cleared).

(** The reply [{"sentiment": "positive"}], written without a quote
    inside a string literal. *)
Definition quote : string := String "034"%char EmptyString.

Definition sentiment_reply : string :=
  "{" +:+ quote +:+ "sentiment" +:+ quote +:+ ": "
      +:+ quote +:+ "positive" +:+ quote +:+ "}".

(** [json.loads] on that reply and on the scalar documents. *)
Definition reply_loads (s : string) : option json :=
  if String.eqb s sentiment_reply
  then Some (JDict [("sentiment", JStr "positive")])
  else Example.scalar_loads s.

(** The instance of [Example] with this [json.loads]. *)
Definition externals : Externals := {|
  ChatPromptTemplate := list (json * json);
  BaseMessage := json * json;
  from_messages := Some;
  template_bool := fun t => negb (is_nil t);
  input_variables := fun _ => [];
  format_messages := fun t _ => Ok t;
  json_loads := reply_loads;
  hash := fun s => Z.of_nat (String.length s)
|}.

Definition library : PromptTemplates.PromptLibrary (H := externals) :=
  fst (PromptTemplates._load_templates (H := externals)
         Example.first_source (PromptTemplates.cleared (H := externals))).

Definition system : AdvancedPromptSystem.System (H := externals) :=
  {| AdvancedPromptSystem.model_name := "gpt-4";
     AdvancedPromptSystem.prompt_library := library |}.

Definition replies (text : string) : Backend (H := externals) :=
  {| gemini_invoke := fun _ _ _ => Ok text;
     llm_invoke := fun _ _ _ => Ok text;
     elapsed_ms := 7 |}.

End Example2.

(** ** Properties of the string builtins *)

Module PyStrFacts.
Import PyStr.

Lemma lstrip_idem s : lstrip (lstrip s) = lstrip s.
Proof.
  induction s as [|c r IH]; simpl; [reflexivity|].
  destruct (isspace c) eqn:E; [exact IH|].
  simpl. now rewrite E.
Qed.

Lemma rstrip_idem s : rstrip (rstrip s) = rstrip s.
Proof.
  induction s as [|c r IH]; simpl; [reflexivity|].
  destruct (is_empty (rstrip r) && isspace c) eqn:E; [reflexivity|].
  simpl. now rewrite IH, E.
Qed.

(** Stripping the left end keeps a right end that is already stripped. *)
Lemma rstrip_lstrip_fixed s : rstrip s = s -> rstrip (lstrip s) = lstrip s.
Proof.
  induction s as [|c r IH]; simpl; [reflexivity|].
  intros Hs.
  destruct (is_empty (rstrip r) && isspace c) eqn:E; [discriminate|].
  injection Hs as Hr.
  destruct (isspace c) eqn:Ec.
  - apply IH, Hr.
  - simpl. rewrite Ec, E. now rewrite Hr.
Qed.

Lemma strip_idem s : strip (strip s) = strip s.
Proof.
  unfold strip.
  rewrite (rstrip_lstrip_fixed (rstrip s)) by apply rstrip_idem.
  apply lstrip_idem.
Qed.

Lemma rstrip_app_keep x y :
  is_empty (rstrip y) = false -> rstrip (x +:+ y) = x +:+ rstrip y.
Proof.
  intros Hy. induction x as [|c r IH]; simpl; [reflexivity|].
  rewrite IH. destruct r; simpl; [now rewrite Hy|reflexivity].
Qed.

Lemma rstrip_app_drop x y :
  rstrip y = EmptyString -> rstrip (x +:+ y) = rstrip x.
Proof.
  intros Hy. induction x as [|c r IH]; simpl; [exact Hy|].
  now rewrite IH.
Qed.

Lemma length_app x y :
  String.length (x +:+ y) = String.length x + String.length y.
Proof. induction x as [|c r IH]; simpl; [reflexivity|now rewrite IH]. Qed.

Lemma slice_from_app x y : slice_from (String.length x) (x +:+ y) = y.
Proof. induction x as [|c r IH]; simpl; [now destruct y|exact IH]. Qed.

Lemma slice_to_app x y : slice_to (String.length x) (x +:+ y) = x.
Proof.
  induction x as [|c r IH]; simpl; [now destruct y|now rewrite IH].
Qed.

Lemma endswith_app p x : endswith p (x +:+ p) = true.
Proof.
  unfold endswith. rewrite length_app.
  replace (String.length x + String.length p - String.length p)
    with (String.length x) by lia.
  rewrite slice_from_app, String.eqb_refl, andb_true_r.
  apply Nat.leb_le. lia.
Qed.

Lemma slice_drop_last_app p x : slice_drop_last (String.length p) (x +:+ p) = x.
Proof.
  unfold slice_drop_last. rewrite length_app.
  replace (String.length x + String.length p - String.length p)
    with (String.length x) by lia.
  apply slice_to_app.
Qed.

Lemma startswith_cons a p b s :
  startswith (String a p) (String b s) = Ascii.eqb a b && startswith p s.
Proof. reflexivity. Qed.

Lemma startswith_app_l p q s :
  startswith (p +:+ q) s = true -> startswith p s = true.
Proof.
  revert s.
  induction p as [|c r IH]; intros s; [now destruct s|].
  destruct s as [|d s']; [discriminate|].
  change (String c r +:+ q) with (String c (r +:+ q)).
  rewrite !startswith_cons.
  intros [Hc Hr]%andb_true_iff. rewrite Hc. now apply IH.
Qed.

Lemma length_lstrip s : String.length (lstrip s) <= String.length s.
Proof.
  induction s as [|c r IH]; simpl; [lia|].
  destruct (isspace c); simpl; lia.
Qed.

Lemma length_rstrip s : String.length (rstrip s) <= String.length s.
Proof.
  induction s as [|c r IH]; simpl; [lia|].
  destruct (is_empty (rstrip r) && isspace c); simpl; lia.
Qed.

Lemma length_strip s : String.length (strip s) <= String.length s.
Proof.
  unfold strip. pose proof (length_lstrip (rstrip s)).
  pose proof (length_rstrip s). lia.
Qed.

Lemma length_slice_from n s :
  String.length (slice_from n s) = String.length s - n.
Proof.
  revert s. induction n as [|n IH]; intros s; simpl; [lia|].
  destruct s as [|c r]; simpl; [reflexivity|apply IH].
Qed.

Lemma length_slice_to n s :
  String.length (slice_to n s) = Nat.min n (String.length s).
Proof.
  revert s. induction n as [|n IH]; intros s; simpl; [reflexivity|].
  destruct s as [|c r]; simpl; [reflexivity|now rewrite IH].
Qed.

Lemma length_slice_drop_last n s :
  String.length (slice_drop_last n s) = String.length s - n.
Proof. unfold slice_drop_last. rewrite length_slice_to. lia. Qed.

Lemma startswith_length p s :
  startswith p s = true -> String.length p <= String.length s.
Proof.
  revert s. induction p as [|a p IH]; intros s; simpl; [lia|].
  destruct s as [|b s]; [discriminate|].
  intros [_ Hp]%andb_true_iff. specialize (IH s Hp). simpl. lia.
Qed.

Lemma endswith_length p s :
  endswith p s = true -> String.length p <= String.length s.
Proof.
  unfold endswith. intros [Hl _]%andb_true_iff. now apply Nat.leb_le.
Qed.

Lemma lstrip_empty s : is_empty (lstrip s) = all_whitespace s.
Proof.
  induction s as [|c r IH]; simpl; [reflexivity|].
  destruct (isspace c); [exact IH|reflexivity].
Qed.

Lemma is_empty_true s : is_empty s = true -> s = EmptyString.
Proof. now destruct s. Qed.

Lemma all_whitespace_rstrip s : all_whitespace (rstrip s) = all_whitespace s.
Proof.
  induction s as [|c r IH]; simpl; [reflexivity|].
  destruct (is_empty (rstrip r) && isspace c) eqn:E; simpl.
  - apply andb_true_iff in E as [Er ->]. apply is_empty_true in Er.
    rewrite <- IH, Er. reflexivity.
  - now rewrite IH.
Qed.

(** [not s.strip()] holds exactly for the empty and the all-whitespace
    strings. *)
Lemma strip_empty s : is_empty (strip s) = all_whitespace s.
Proof. unfold strip. now rewrite lstrip_empty, all_whitespace_rstrip. Qed.

End PyStrFacts.

(** ** Properties of the output validator *)

Module OutputValidatorFacts.
Import PyStr PyStrFacts OutputValidator.


(** Text that opens and closes with a fence marker has nothing to trim. *)
Lemma strip_between_fences x : strip (fence +:+ x +:+ fence) = fence +:+ x +:+ fence.
Proof.
  unfold strip.
  replace (fence +:+ x +:+ fence) with ((fence +:+ x) +:+ fence)
    by (unfold fence; reflexivity).
  rewrite rstrip_app_keep by reflexivity.
  reflexivity.
Qed.


(** After the opening marker is gone, the closing one is removed and the
    content trimmed. *)
Lemma clean_tail c :
  strip (if endswith fence (c +:+ fence)
         then slice_drop_last 3 (c +:+ fence) else c +:+ fence) = strip c.
Proof.
  rewrite endswith_app.
  now rewrite (slice_drop_last_app fence c : slice_drop_last 3 (c +:+ fence) = c).
Qed.

Lemma clean_json_fenced c : clean_json_response (fenced "json" c) = strip c.
Proof.
  unfold clean_json_response, fenced.
  change (fence +:+ "json" +:+ c +:+ fence)
    with (fence +:+ ("json" +:+ c) +:+ fence).
  rewrite strip_between_fences.
  change (startswith json_fence (fence +:+ ("json" +:+ c) +:+ fence)) with true.
  cbv iota.
  change (slice_from 7 (fence +:+ ("json" +:+ c) +:+ fence)) with (c +:+ fence).
  apply clean_tail.
Qed.


(** The result of cleaning has nothing left to trim. *)
Lemma clean_stripped s : strip (clean_json_response s) = clean_json_response s.
Proof. unfold clean_json_response. apply strip_idem. Qed.

(** Trimmed text without a fence at either end is returned as it is. *)
Lemma clean_fixed t :
  strip t = t -> startswith fence t = false -> endswith fence t = false ->
  clean_json_response t = t.
Proof.
  intros Hs Hp He. unfold clean_json_response. rewrite Hs.
  destruct (startswith json_fence t) eqn:Hj.
  - apply (startswith_app_l fence "json" t) in Hj. congruence.
  - now rewrite Hp, He.
Qed.

(** Trimmed text with a fence at one end loses at least that fence. *)
Lemma clean_shrinks t :
  strip t = t -> startswith fence t = true \/ endswith fence t = true ->
  String.length (clean_json_response t) < String.length t.
Proof.
  intros Hs Hf. unfold clean_json_response. rewrite Hs.
  set (r1 := if startswith json_fence t then slice_from 7 t
             else if startswith fence t then slice_from 3 t else t).
  set (r2 := if endswith fence r1 then slice_drop_last 3 r1 else r1).
  pose proof (length_strip r2) as L2.
  assert (String.length r2 <= String.length r1) as L1.
  { subst r2. destruct (endswith fence r1); [|lia].
    rewrite length_slice_drop_last. lia. }
  destruct (startswith fence t) eqn:Hp.
  - apply startswith_length in Hp. simpl in Hp.
    assert (String.length r1 <= String.length t - 3); [|lia].
    subst r1. destruct (startswith json_fence t);
      rewrite length_slice_from; lia.
  - destruct Hf as [Hf|He]; [discriminate|].
    assert (startswith json_fence t = false) as Hj.
    { destruct (startswith json_fence t) eqn:Hj; [|reflexivity].
      apply (startswith_app_l fence "json" t) in Hj. congruence. }
    assert (r1 = t) as -> by (subst r1; now rewrite Hj).
    subst r2. rewrite He in *. rewrite length_slice_drop_last in L2.
    apply endswith_length in He. simpl in He. lia.
Qed.




(** C4 (as amended): cleaning a second time changes nothing exactly when
    the cleaned text has no fence marker left at its start or at its end;
    in particular trimmed text with no fence at either end is returned
    unchanged. *)
Theorem clean_twice_iff_no_fence_left s :
  clean_json_response (clean_json_response s) = clean_json_response s
  <-> startswith fence (clean_json_response s) = false
      /\ endswith fence (clean_json_response s) = false.
Proof.
  split.
  - intros Heq.
    destruct (startswith fence (clean_json_response s)) eqn:Hp.
    + pose proof (clean_shrinks _ (clean_stripped s) (or_introl Hp)) as L.
      rewrite Heq in L. lia.
    + destruct (endswith fence (clean_json_response s)) eqn:He; [|easy].
      pose proof (clean_shrinks _ (clean_stripped s) (or_intror He)) as L.
      rewrite Heq in L. lia.
  - intros [Hp He]. apply clean_fixed; [apply clean_stripped|easy..].
Qed.

(** C4 as stated fails: a doubled opening fence loses one layer per pass. *)
Lemma clean_not_idempotent_counterexample :
  clean_json_response "``````a" = "```a"
  /\ clean_json_response (clean_json_response "``````a") = "a"
  /\ clean_json_response (clean_json_response "``````a")
     <> clean_json_response "``````a".
Proof.
  split; [reflexivity|]. split; [reflexivity|vm_compute; discriminate].
Qed.

End OutputValidatorFacts.

(** ** Properties of the input validator *)

Module InputValidatorFacts.
Import PyStr PyStrFacts InputValidator.

Lemma is_nil_false {A} (l : list A) : is_nil l = false <-> l <> [].
Proof. destruct l; simpl; split; congruence. Qed.

Lemma in_missing_fields variables required f :
  In f (missing_fields variables required)
  <-> In f required /\ dict_has f variables = false.
Proof.
  unfold missing_fields. rewrite filter_In, negb_true_iff. reflexivity.
Qed.

Lemma in_empty_fields variables k :
  In k (empty_fields variables)
  <-> exists v, In (k, v) variables /\ all_whitespace (str v) = true.
Proof.
  unfold empty_fields. rewrite in_map_iff. split.
  - intros [[k' v] [<- Hin]]. apply filter_In in Hin as [Hin Hv].
    simpl in *. rewrite strip_empty in Hv. eauto.
  - intros [v [Hin Hv]]. exists (k, v). split; [reflexivity|].
    apply filter_In. simpl. now rewrite strip_empty.
Qed.

Lemma missing_fields_nil variables required :
  missing_fields variables required = []
  <-> forall f, In f required -> dict_has f variables = true.
Proof.
  split.
  - intros Hm f Hf. destruct (dict_has f variables) eqn:E; [reflexivity|].
    assert (In f (missing_fields variables required)) as Hin
      by now apply in_missing_fields.
    rewrite Hm in Hin. destruct Hin.
  - intros Hall. destruct (missing_fields variables required) as [|f l] eqn:E;
      [reflexivity|].
    assert (In f (missing_fields variables required)) as Hin
      by (rewrite E; now left).
    apply in_missing_fields in Hin as [Hf Hd]. rewrite (Hall f Hf) in Hd.
    discriminate.
Qed.

Lemma empty_fields_nil variables :
  empty_fields variables = []
  <-> forall k v, In (k, v) variables -> all_whitespace (str v) = false.
Proof.
  split.
  - intros He k v Hin. destruct (all_whitespace (str v)) eqn:E; [|reflexivity].
    assert (In k (empty_fields variables)) as Hk
      by (apply in_empty_fields; eauto).
    rewrite He in Hk. destruct Hk.
  - intros Hall. destruct (empty_fields variables) as [|k l] eqn:E;
      [reflexivity|].
    assert (In k (empty_fields variables)) as Hk by (rewrite E; now left).
    apply in_empty_fields in Hk as [v [Hin Hv]].
    rewrite (Hall k v Hin) in Hv. discriminate.
Qed.

(** The injection loop passes exactly when no [str] value holds the
    phrase; values that are not [str] are never looked at. *)
Lemma check_injection_ok items :
  check_injection items = Ok tt
  <-> forall k s, In (k, VStr s) items ->
        contains injection_phrase (lower s) = false.
Proof.
  induction items as [|[k [s|o]] rest IH]; simpl.
  - split; [intros _ k s []|reflexivity].
  - destruct (contains injection_phrase (lower s)) eqn:E.
    + split; [discriminate|].
      intros Hall. specialize (Hall k s (or_introl eq_refl)). congruence.
    + rewrite IH. split.
      * intros Hall k' s' [[= <- <-]|Hin]; eauto.
      * intros Hall k' s' Hin. eauto.
  - rewrite IH. split.
    + intros Hall k' s' [[=]|Hin]; eauto.
    + intros Hall k' s' Hin. eauto.
Qed.

Lemma check_injection_raise items e :
  check_injection items = Raise e ->
  exists k s, e = ValueError (SuspiciousInput k) /\ In (k, VStr s) items
              /\ contains injection_phrase (lower s) = true.
Proof.
  induction items as [|[k [s|o]] rest IH]; simpl; [discriminate| |].
  - destruct (contains injection_phrase (lower s)) eqn:E.
    + intros [= <-]. exists k, s. auto.
    + intros Hr. destruct (IH Hr) as (k' & s' & ? & ? & ?). exists k', s'. auto.
  - intros Hr. destruct (IH Hr) as (k' & s' & ? & ? & ?). exists k', s'. auto.
Qed.

(** C5: when at least one required name is absent from the binding,
    [validate_variables] raises the missing-fields error, and the list it
    reports holds exactly the absent required names. *)
Theorem missing_fields_listed_exactly (variables : dict value)
    (required_fields : list string) :
  (exists f, In f required_fields /\ dict_has f variables = false) ->
  exists missing,
    validate_variables variables required_fields
      = Raise (ValueError (MissingRequiredFields missing))
    /\ forall f, In f missing
                 <-> In f required_fields /\ dict_has f variables = false.
Proof.
  intros [f Hf]. exists (missing_fields variables required_fields). split.
  - unfold validate_variables.
    apply in_missing_fields in Hf.
    destruct (missing_fields variables required_fields); [destruct Hf|].
    reflexivity.
  - intros g. apply in_missing_fields.
Qed.

Lemma missing_fields_listed_exactly_witness :
  (exists f, In f ["text"; "tone"; "length"]
             /\ dict_has f [("tone", VStr "formal")] = false)
  /\ exists missing,
       validate_variables [("tone", VStr "formal")] ["text"; "tone"; "length"]
         = Raise (ValueError (MissingRequiredFields missing))
       /\ forall f, In f missing
                    <-> In f ["text"; "tone"; "length"]
                        /\ dict_has f [("tone", VStr "formal")] = false.
Proof.
  split.
  - exists "text". split; [now left|reflexivity].
  - apply (missing_fields_listed_exactly
             [("tone", VStr "formal")] ["text"; "tone"; "length"]).
    exists "text". split; [now left|reflexivity].
Defined.

(** C9: for a binding that has every required name, if some key of the
    binding (required or not) has a value whose [str] is empty or all
    whitespace, [validate_variables] raises the empty-value error, and
    the list it reports holds exactly the keys of the binding with such a
    value. *)
Theorem empty_values_checked_on_every_key (variables : dict value)
    (required_fields : list string) :
  (forall f, In f required_fields -> dict_has f variables = true) ->
  (exists k v, In (k, v) variables /\ all_whitespace (str v) = true) ->
  exists empty,
    validate_variables variables required_fields
      = Raise (ValueError (EmptyValues empty))
    /\ forall k, In k empty
                 <-> exists v, In (k, v) variables
                               /\ all_whitespace (str v) = true.
Proof.
  intros Hreq (k & v & Hkv). exists (empty_fields variables). split.
  - unfold validate_variables.
    apply missing_fields_nil in Hreq. rewrite Hreq. simpl.
    assert (In k (empty_fields variables)) as Hk
      by (apply in_empty_fields; eauto).
    destruct (empty_fields variables); [destruct Hk|reflexivity].
  - intros k'. apply in_empty_fields.
Qed.

Lemma empty_values_checked_on_every_key_witness :
  (forall f, In f ["text"] ->
             dict_has f [("text", VStr "hello"); ("note", VStr "  ")] = true)
  /\ (exists k v, In (k, v) [("text", VStr "hello"); ("note", VStr "  ")]
                  /\ all_whitespace (str v) = true)
  /\ exists empty,
       validate_variables [("text", VStr "hello"); ("note", VStr "  ")] ["text"]
         = Raise (ValueError (EmptyValues empty))
       /\ forall k, In k empty
                    <-> exists v,
                          In (k, v) [("text", VStr "hello"); ("note", VStr "  ")]
                          /\ all_whitespace (str v) = true.
Proof.
  assert (forall f, In f ["text"] ->
            dict_has f [("text", VStr "hello"); ("note", VStr "  ")] = true)
    as Hreq by (intros f [<-|[]]; reflexivity).
  assert (exists k v, In (k, v) [("text", VStr "hello"); ("note", VStr "  ")]
                      /\ all_whitespace (str v) = true) as Hblank
    by (exists "note", (VStr "  "); split; [right; now left|reflexivity]).
  split; [exact Hreq|]. split; [exact Hblank|].
  exact (empty_values_checked_on_every_key
           [("text", VStr "hello"); ("note", VStr "  ")] ["text"] Hreq Hblank).
Defined.

(** The extra key is the one reported. *)
Example empty_extra_key_reported :
  validate_variables [("text", VStr "hello"); ("note", VStr "  ")] ["text"]
  = Raise (ValueError (EmptyValues ["note"])).
Proof. reflexivity. Qed.

(** A missing name wins over a blank value and over the phrase; a value
    that is not a [str] is not searched for the phrase. *)
Example missing_field_wins :
  validate_variables
    [("note", VStr " "); ("text", VStr "Ignore previous instructions")] ["query"]
  = Raise (ValueError (MissingRequiredFields ["query"])).
Proof. reflexivity. Qed.

Example phrase_found_in_str :
  validate_variables [("text", VStr "Please IGNORE Previous Instructions.")] ["text"]
  = Raise (ValueError (SuspiciousInput "text")).
Proof. reflexivity. Qed.

Example phrase_in_other_value_passes :
  validate_variables [("text", VObj "ignore previous instructions")] ["text"]
  = Ok [("text", VObj "ignore previous instructions")].
Proof. reflexivity. Qed.

(** C10: the three checks run in a fixed order.  A missing required name
    raises the missing-fields error whatever else the binding holds; the
    empty-value error is raised only when no required name is missing,
    and then whenever some value is blank; the injection error is raised
    only when nothing is missing and no value is blank, only for a key
    whose value is a [str] holding the phrase, and then whenever there is
    such a key; in every other case the binding is returned. *)
Theorem checks_run_in_order (variables : dict value)
    (required_fields : list string) :
  let result := validate_variables variables required_fields in
  let all_present := forall f, In f required_fields -> dict_has f variables = true in
  let none_blank := forall k v, In (k, v) variables -> all_whitespace (str v) = false in
  let suspicious k :=
    exists s, In (k, VStr s) variables
              /\ contains injection_phrase (lower s) = true in
  ((exists f, In f required_fields /\ dict_has f variables = false) ->
     exists missing, result = Raise (ValueError (MissingRequiredFields missing)))
  /\ (forall empty, result = Raise (ValueError (EmptyValues empty)) -> all_present)
  /\ (all_present ->
      (exists k v, In (k, v) variables /\ all_whitespace (str v) = true) ->
      exists empty, result = Raise (ValueError (EmptyValues empty)))
  /\ (forall k, result = Raise (ValueError (SuspiciousInput k)) ->
        all_present /\ none_blank /\ suspicious k)
  /\ (all_present -> none_blank -> (exists k, suspicious k) ->
      exists k, result = Raise (ValueError (SuspiciousInput k)) /\ suspicious k)
  /\ (all_present -> none_blank -> (forall k, ~ suspicious k) ->
      result = Ok variables).
Proof.
  intros result all_present none_blank suspicious.
  subst result all_present none_blank suspicious.
  unfold validate_variables.
  destruct (missing_fields variables required_fields) as [|m ms] eqn:Hm; simpl.
  - pose proof (proj1 (missing_fields_nil _ _) Hm) as Hpresent.
    assert (~ exists f, In f required_fields /\ dict_has f variables = false)
      as Hnomiss.
    { intros [f [Hf Hd]]. rewrite (Hpresent f Hf) in Hd. discriminate. }
    destruct (empty_fields variables) as [|e es] eqn:He; simpl.
    + pose proof (proj1 (empty_fields_nil _) He) as Hfilled.
      assert (~ exists k v, In (k, v) variables
                            /\ all_whitespace (str v) = true) as Hnoblank.
      { intros (k & v & Hin & Hv). rewrite (Hfilled k v Hin) in Hv.
        discriminate. }
      destruct (check_injection variables) as [[]|e] eqn:Hc; simpl.
      * pose proof (proj1 (check_injection_ok variables) Hc) as Hok.
        split; [intros Hex; destruct (Hnomiss Hex)|].
        split; [discriminate|].
        split; [intros _ Hex; destruct (Hnoblank Hex)|].
        split; [discriminate|].
        split; [|reflexivity].
        intros _ _ (k & s & Hin & Hs). rewrite (Hok k s Hin) in Hs.
        discriminate.
      * destruct (check_injection_raise variables e Hc)
          as (k & s & -> & Hin & Hs).
        split; [intros Hex; destruct (Hnomiss Hex)|].
        split; [discriminate|].
        split; [intros _ Hex; destruct (Hnoblank Hex)|].
        split; [intros k' [= <-]; eauto|].
        split; [intros _ _ _; exists k; eauto|].
        intros _ _ Hno. destruct (Hno k). eauto.
    + assert (In e (empty_fields variables)) as Hin by (rewrite He; now left).
      apply in_empty_fields in Hin as (v & Hin & Hv).
      split; [intros Hex; destruct (Hnomiss Hex)|].
      split; [intros _ _; exact Hpresent|].
      split; [intros _ _; eauto|].
      split; [discriminate|].
      split; intros _ Hnb; rewrite (Hnb e v Hin) in Hv; discriminate.
  - assert (In m (missing_fields variables required_fields)) as Hin
      by (rewrite Hm; now left).
    apply in_missing_fields in Hin as [Hf Hd].
    assert (~ forall f, In f required_fields -> dict_has f variables = true)
      as Hnot.
    { intros Hall. rewrite (Hall m Hf) in Hd. discriminate. }
    split; [intros _; eauto|].
    split; [discriminate|].
    split; [intros Hall; destruct (Hnot Hall)|].
    split; [discriminate|].
    split; intros Hall; destruct (Hnot Hall).
Qed.

End InputValidatorFacts.

(** ** Properties of the template library *)

Module PromptTemplatesFacts.
Import PyStr PyStrFacts PromptTemplates.

Section Library.
Context `{Externals}.

Lemma In_keys (self : PromptLibrary) name :
  In name (keys self) <-> is_Some (templates self !! name).
Proof.
  unfold keys. rewrite <- list_elem_of_In, list_elem_of_fmap. split.
  - intros [[k t] [-> Hin]]. apply elem_of_map_to_list in Hin. simpl. eauto.
  - intros [t Ht]. exists (name, t). split; [reflexivity|].
    now apply elem_of_map_to_list.
Qed.

Lemma NoDup_keys (self : PromptLibrary) : NoDup (keys self).
Proof. apply NoDup_fst_map_to_list. Qed.

Lemma In_sorted l name : In name (sorted l) <-> In name l.
Proof.
  unfold sorted. rewrite <- !list_elem_of_In.
  now rewrite (merge_sort_Permutation String.le l).
Qed.

Lemma NoDup_sorted l : NoDup l -> NoDup (sorted l).
Proof.
  unfold sorted. intros Hl.
  now rewrite (merge_sort_Permutation String.le l).
Qed.

Lemma Sorted_sorted l : Sorted String.le (sorted l).
Proof. apply Sorted_merge_sort, _. Qed.

(** What one entry does to the templates: one insertion when it loads,
    nothing when it raises. *)
Lemma load_entry_templates name config (self self' : PromptLibrary) r :
  load_entry name config self = (self', r) ->
  match r with
  | Ok _ => exists t, templates self' = <[name := t]> (templates self)
  | Raise _ => templates self' = templates self
  end.
Proof.
  unfold load_entry.
  destruct config as [| | | | |items]; try (intros [= <- <-]; reflexivity).
  destruct (dict_get "messages" items) as [msgs|];
    [|intros [= <- <-]; reflexivity].
  destruct (build_template msgs) as [t|]; intros [= <- <-]; simpl; eauto.
Qed.

(** The loop stops at the first entry that raises; the names it has put
    in the library are those of the entries before that one. *)
Lemma load_entries_names items : forall (self self' : PromptLibrary) r,
  load_entries items self = (self', r) ->
  exists loaded rest,
    items = (loaded ++ rest)%list
    /\ match r with Ok _ => rest = [] | Raise _ => rest <> [] end
    /\ forall name, is_Some (templates self' !! name)
                    <-> is_Some (templates self !! name) \/ In name (map fst loaded).
Proof.
  induction items as [|[name config] items IH]; intros self self' r; simpl.
  - intros [= <- <-]. exists [], [].
    split; [reflexivity|]. split; [reflexivity|].
    intros n. simpl. tauto.
  - destruct (load_entry name config self) as [self1 [u|e]] eqn:E.
    + intros Hrest. apply load_entry_templates in E as [t Ht].
      destruct (IH _ _ _ Hrest) as (loaded & rest & -> & Hr & Hnames).
      exists ((name, config) :: loaded), rest.
      split; [reflexivity|]. split; [exact Hr|].
      intros n. rewrite Hnames, Ht, lookup_insert_is_Some. simpl.
      destruct (decide (name = n)) as [->|Hne]; tauto.
    + intros [= <- <-]. apply load_entry_templates in E.
      exists [], ((name, config) :: items).
      split; [reflexivity|]. split; [discriminate|].
      intros n. rewrite E. simpl. tauto.
Qed.

(** A reload that returns has replaced the set by the entries of the
    source. *)
Lemma reload_returns_all_names file (self self' : PromptLibrary) :
  reload_templates file self = (self', Ok tt) ->
  exists items, file = Document (JDict items)
    /\ forall name, is_Some (templates self' !! name) <-> In name (map fst items).
Proof.
  unfold reload_templates, _load_templates.
  destruct file as [| |[| | | | |items]]; try discriminate.
  intros Hl. exists items. split; [reflexivity|].
  destruct (load_entries_names _ _ _ _ Hl) as (loaded & rest & -> & -> & Hn).
  intros name. rewrite Hn, app_nil_r. simpl.
  rewrite lookup_empty. split; [intros [[? [=]]|?]; assumption|tauto].
Qed.


(** C7 (as amended): [list_templates] returns names of loaded templates
    in lexicographic order, each once; with a category that is not empty
    these are exactly the names that start with the lower-cased category
    text, and without one (or with the empty string) all the names. *)
Theorem list_templates_sorted_by_prefix (self : PromptLibrary)
    (category : option string) :
  Sorted String.le (list_templates self category)
  /\ NoDup (list_templates self category)
  /\ forall name,
       In name (list_templates self category)
       <-> is_Some (templates self !! name)
           /\ match category with
              | Some c => c = "" \/ startswith (lower c) name = true
              | None => True
              end.
Proof.
  unfold list_templates.
  destruct category as [c|];
    [destruct (is_empty c) eqn:Ec; simpl|].
  - apply is_empty_true in Ec as ->.
    split; [apply Sorted_sorted|]. split; [apply NoDup_sorted, NoDup_keys|].
    intros name. rewrite In_sorted, In_keys. tauto.
  - split; [apply Sorted_sorted|]. split.
    { apply NoDup_sorted, NoDup_ListNoDup, List.NoDup_filter.
      apply NoDup_ListNoDup, NoDup_keys. }
    intros name. rewrite In_sorted, filter_In, In_keys.
    split; [tauto|]. intros [Hn [->|Hp]]; [discriminate|tauto].
  - split; [apply Sorted_sorted|]. split; [apply NoDup_sorted, NoDup_keys|].
    intros name. rewrite In_sorted, In_keys. tauto.
Qed.

End Library.



(** C7 as stated fails: the filter is a prefix test on the name, not a
    comparison with the part before the first separator. *)
Lemma list_templates_prefix_counterexample :
  list_templates (H := Example.externals) Example.first_library (Some "sentiment")
    = ["sentiment_v1"; "sentiment_v3"; "sentimental_v1"]
  /\ category_of "sentimental_v1" <> "sentiment".
Proof. split; [reflexivity|discriminate]. Qed.

End PromptTemplatesFacts.

(** ** Properties of the orchestrator and of the A/B selector *)

Module AdvancedPromptSystemFacts.
Import PyStr OutputValidator PromptTemplates AdvancedPromptSystem.

(** The field check needs a container: on [None], a bool or a number the
    first membership test raises [TypeError]. *)
Lemma missing_in_scalar data f fields :
  is_scalar data = true -> missing_in data (f :: fields) = Raise TypeError.
Proof. destruct data; simpl; try discriminate; reflexivity. Qed.

Lemma missing_in_container data fields :
  is_scalar data = false -> exists missing, missing_in data fields = Ok missing.
Proof.
  intros Hd. induction fields as [|f fields IH]; simpl; [eauto|].
  destruct IH as [missing IH].
  rewrite IH. destruct data; simpl in *; try discriminate; eauto.
Qed.

Lemma known_presets config_name :
  CONFIGS !! config_name = None
  <-> config_name <> "factual" /\ config_name <> "balanced"
      /\ config_name <> "creative".
Proof.
  unfold CONFIGS. rewrite !lookup_insert_None, lookup_empty.
  split; [intros [[[_ ?] ?] ?]|intros (? & ? & ?)]; repeat split; congruence.
Qed.

Section System.
Context `{Externals}.

(** [validate_json] raises a [ValueError], or a [TypeError] in the one
    case of a scalar document checked for fields. *)
Lemma validate_json_raise response required_fields e :
  validate_json response required_fields = Raise e ->
  (exists msg, e = ValueError msg)
  \/ (e = TypeError
      /\ exists data f fields,
           json_loads (clean_json_response response) = Some data
           /\ is_scalar data = true /\ required_fields = Some (f :: fields)).
Proof.
  unfold validate_json.
  destruct (json_loads (clean_json_response response)) as [data|] eqn:Hl;
    [|intros [= <-]; eauto].
  destruct required_fields as [[|f fields]|]; try discriminate.
  destruct (is_scalar data) eqn:Hs.
  - rewrite (missing_in_scalar data f fields Hs). intros [= <-].
    right. split; [reflexivity|]. exists data, f, fields. auto.
  - destruct (missing_in_container data (f :: fields) Hs) as [missing ->].
    simpl. destruct missing; simpl; [discriminate|]. intros [= <-]. eauto.
Qed.

(** The status branch keeps the response text whenever it returns. *)
Lemma validated_keeps_response result required_output_fields r :
  validated result required_output_fields = Ok r ->
  response r = response result
  /\ exists status, validation_status (metadata r) = Some status.
Proof.
  unfold validated.
  destruct (validate_json (response result) required_output_fields)
    as [parsed|[msg| | | | | | | |]]; try discriminate;
    intros [= <-]; simpl; eauto.
Qed.

(** A [ValueError] of the output validation becomes a status. *)
Lemma validated_value_error result required_output_fields msg :
  validate_json (response result) required_output_fields
    = Raise (ValueError msg) ->
  exists r, validated result required_output_fields = Ok r
    /\ response r = response result
    /\ validation_status (metadata r) = Some (Failed msg).
Proof. unfold validated. intros ->. eexists. simpl. eauto. Qed.

(** The missed case: a reply that parses to a scalar, checked for
    required fields, makes the status branch raise [TypeError]. *)
Lemma validated_scalar_raises result data f fields :
  json_loads (clean_json_response (response result)) = Some data ->
  is_scalar data = true ->
  validated result (Some (f :: fields)) = Raise TypeError.
Proof.
  intros Hl Hs. unfold validated, validate_json. rewrite Hl.
  now rewrite (missing_in_scalar data f fields Hs).
Qed.

Lemma generate_metadata self backend template_name variables config_name
    validate_output required_output_fields r :
  generate self backend template_name variables config_name validate_output
    required_output_fields = Ok r ->
  template (metadata r) = template_name
  /\ config (metadata r) = config_name
  /\ ab_test_info r = None.
Proof.
  unfold generate, bind.
  destruct (get_template _ _) as [tpl|]; [|discriminate].
  destruct (template_bool tpl); simpl; [|discriminate].
  destruct (InputValidator.validate_variables _ _); [|discriminate].
  destruct (format_messages _ _) as [messages|]; [|discriminate].
  destruct (invoke _ _ _ _) as [text|]; [|discriminate].
  destruct validate_output; [|intros [= <-]; simpl; auto].
  unfold validated; simpl.
  destruct (validate_json _ _) as [parsed|[msg| | | | | | | |]];
    try discriminate; intros [= <-]; simpl; auto.
Qed.


(** C8: within one process (one [hash]) the variant assigned to a user
    depends on the user identifier and the variant list alone: for a
    list that is not empty the index [hash(user_id) % len(versions)] is
    in range, the assignment returns the variant at that index, and
    every call of [ab_test] that returns, whatever the backend answers,
    reports that variant and has used its template. *)
Theorem ab_assignment_deterministic (user : string) (versions : list string) :
  is_nil versions = false ->
  exists v,
    versions !! Z.to_nat (hash user `mod` Z.of_nat (length versions)) = Some v
    /\ assign user versions
       = Ok ((hash user `mod` Z.of_nat (length versions))%Z, v)
    /\ forall self backend base variables config_name r,
         ab_test self backend user base variables versions config_name = Ok r ->
         option_map assigned_version (ab_test_info r) = Some v
         /\ template (metadata r) = base +:+ "_" +:+ v.
Proof.
  intros Hne.
  assert (0 < Z.of_nat (length versions))%Z as Hlen
    by (destruct versions; [discriminate|simpl; lia]).
  pose proof (Z.mod_pos_bound (hash user) _ Hlen) as Hidx.
  destruct (lookup_lt_is_Some_2 versions
              (Z.to_nat (hash user `mod` Z.of_nat (length versions))))
    as [v Hv]; [lia|].
  assert (assign user versions
          = Ok ((hash user `mod` Z.of_nat (length versions))%Z, v)) as Ha.
  { unfold assign. destruct versions; [discriminate|]. now rewrite Hv. }
  exists v. split; [exact Hv|]. split; [exact Ha|].
  intros self backend base variables config_name r.
  unfold ab_test. rewrite Ha. unfold bind. simpl.
  destruct (generate _ _ _ _ _ _ _) as [result|] eqn:Hg; [|discriminate].
  destruct (chr _) as [group|]; [|discriminate].
  intros [= <-]. simpl. split; [reflexivity|].
  now apply generate_metadata in Hg as [-> _].
Qed.

End System.


Lemma ab_assignment_deterministic_witness :
  is_nil ["v2"; "v3"] = false
  /\ exists v,
       ["v2"; "v3"]
         !! Z.to_nat (hash (Externals := Example.externals) "user123"
                        `mod` Z.of_nat (length ["v2"; "v3"])) = Some v
       /\ assign (H := Example.externals) "user123" ["v2"; "v3"]
          = Ok ((hash (Externals := Example.externals) "user123"
                   `mod` Z.of_nat (length ["v2"; "v3"]))%Z, v)
       /\ forall self backend base variables config_name r,
            ab_test (H := Example.externals) self backend "user123" base
              variables ["v2"; "v3"] config_name = Ok r ->
            option_map assigned_version (ab_test_info r) = Some v
            /\ template (metadata r) = base +:+ "_" +:+ v.
Proof.
  split; [reflexivity|].
  apply (ab_assignment_deterministic (H := Example.externals)
           "user123" ["v2"; "v3"]).
  reflexivity.
Defined.

(** C2 at the failing input: the model answers [42], the caller asks for
    the fields of the sentiment templates, and [generate] raises
    [TypeError] instead of returning the reply with a failed status. *)
Theorem generate_raises_on_scalar_reply :
  generate (H := Example.externals) Example.system (Example.replies "42")
    "sentiment_v3" [("text", VStr "I love it!")] "factual" true
    (Some ["sentiment"; "confidence"; "reasoning"])
  = Raise TypeError.
Proof. reflexivity. Qed.

(** The same reply without required fields, and a reply that is no JSON
    at all, are returned with their status. *)
Example generate_keeps_unparsable_reply :
  res_map (fun r => (response r, validation_status (metadata r)))
    (generate (H := Example.externals) Example.system
       (Example.replies "I think it is positive.")
       "sentiment_v3" [("text", VStr "I love it!")] "factual" true
       (Some ["sentiment"; "confidence"; "reasoning"]))
  = Ok ("I think it is positive.", Some (Failed InvalidJSONResponse)).
Proof. reflexivity. Qed.

End AdvancedPromptSystemFacts.

(** ** Further properties of the template library *)

Module LibraryQueriesFacts.
Import PyStr PyStrFacts PromptTemplates PromptTemplatesFacts LibraryQueries.

Section Queries.
Context `{Externals}.

(** What one entry does to both dicts.  An entry that loads inserts its
    template and its info, and would do so from any library; an entry
    that raises leaves the templates alone and has stored at most its
    own info. *)
Lemma load_entry_shape name config (self self' : PromptLibrary) r :
  load_entry name config self = (self', r) ->
  match r with
  | Ok _ =>
      exists t info,
        templates self' = <[name := t]> (templates self)
        /\ template_metadata self' = <[name := info]> (template_metadata self)
        /\ forall other : PromptLibrary,
             load_entry name config other
             = ({| templates := <[name := t]> (templates other);
                   template_metadata :=
                     <[name := info]> (template_metadata other) |}, Ok tt)
  | Raise _ =>
      templates self' = templates self
      /\ (template_metadata self' = template_metadata self
          \/ exists info,
               template_metadata self'
               = <[name := info]> (template_metadata self))
  end.
Proof.
  unfold load_entry.
  destruct config as [| | | | |items]; try (intros [= <- <-]; auto).
  destruct (dict_get "messages" items) as [msgs|];
    [|intros [= <- <-]; auto].
  destruct (build_template msgs) as [t|]; intros [= <- <-]; simpl.
  - exists t, (info_of items). auto.
  - eauto.
Qed.


(** The two dicts after a load.  From a library where they hold the same
    names, a load that returns keeps it so; a load that raises still has
    an info for every template, and at most one name with an info and no
    template. *)
Lemma load_entries_metadata items : forall (self self' : PromptLibrary) r,
  (forall n, is_Some (templates self !! n)
             <-> is_Some (template_metadata self !! n)) ->
  load_entries items self = (self', r) ->
  match r with
  | Ok _ =>
      forall n, is_Some (templates self' !! n)
                <-> is_Some (template_metadata self' !! n)
  | Raise _ =>
      (forall n, is_Some (templates self' !! n) ->
                 is_Some (template_metadata self' !! n))
      /\ exists failing,
           forall n, is_Some (template_metadata self' !! n) ->
                     is_Some (templates self' !! n) \/ n = failing
  end.
Proof.
  induction items as [|[name config] items IH]; intros self self' r Hsame; simpl.
  - intros [= <- <-]. exact Hsame.
  - destruct (load_entry name config self) as [self1 [u|e]] eqn:E;
      apply load_entry_shape in E.
    + destruct E as (t & info & Ht & Hm & _). apply IH.
      intros n. rewrite Ht, Hm, !lookup_insert_is_Some, Hsame. tauto.
    + intros [= <- <-]. destruct E as [Ht [Hm|[info Hm]]]; rewrite Ht, Hm.
      * split; [intros n; apply Hsame|].
        exists name. intros n Hn. left. now apply Hsame.
      * split.
        -- intros n Hn. rewrite lookup_insert_is_Some.
           destruct (decide (name = n)); [tauto|]. right. split; [assumption|].
           now apply Hsame.
        -- exists name. intros n [->|[_ Hn]]%lookup_insert_is_Some;
             [tauto|]. left. now apply Hsame.
Qed.

Lemma cleared_same_names n :
  is_Some (templates cleared !! n) <-> is_Some (template_metadata cleared !! n).
Proof. simpl. rewrite !lookup_empty. split; intros [x [=]]. Qed.

Lemma get_template_ok (self : PromptLibrary) name :
  (exists t, get_template self name = Ok t) <-> is_Some (templates self !! name).
Proof.
  unfold get_template. destruct (templates self !! name) as [t|].
  - split; eauto.
  - split; [intros [t [=]]|intros [t [=]]].
Qed.

Lemma get_template_info_ok (self : PromptLibrary) name :
  (exists info, get_template_info self name = Ok info)
  <-> is_Some (template_metadata self !! name).
Proof.
  unfold get_template_info. destruct (template_metadata self !! name) as [i|].
  - split; eauto.
  - split; [intros [t [=]]|intros [t [=]]].
Qed.

(** The result of a reload, whatever the definition source. *)
Lemma reload_metadata file (self self' : PromptLibrary) r :
  reload_templates file self = (self', r) ->
  match r with
  | Ok _ =>
      forall n, is_Some (templates self' !! n)
                <-> is_Some (template_metadata self' !! n)
  | Raise _ =>
      (forall n, is_Some (templates self' !! n) ->
                 is_Some (template_metadata self' !! n))
      /\ exists failing,
           forall n, is_Some (template_metadata self' !! n) ->
                     is_Some (templates self' !! n) \/ n = failing
  end.
Proof.
  unfold reload_templates, _load_templates.
  destruct file as [| |[| | | | |items]];
    try (intros [= <- <-]; split;
         [intros n; apply cleared_same_names
         |exists ""; intros n Hn; left; now apply cleared_same_names]).
  apply load_entries_metadata, cleared_same_names.
Qed.

(** X1: after any reload, whether it returned or raised, every template
    that [get_template] returns has an info that [get_template_info]
    returns; after a reload that returned, the two methods accept
    exactly the same names. *)
Theorem info_for_every_template (file : source) (self : PromptLibrary) :
  let after := fst (reload_templates file self) in
  (forall name t, get_template after name = Ok t ->
                  exists info, get_template_info after name = Ok info)
  /\ (snd (reload_templates file self) = Ok tt ->
      forall name info, get_template_info after name = Ok info ->
                        exists t, get_template after name = Ok t).
Proof.
  destruct (reload_templates file self) as [self' r] eqn:E. simpl.
  apply reload_metadata in E. split.
  - intros name t Ht. apply get_template_info_ok.
    assert (is_Some (templates self' !! name)) as Hn
      by (apply get_template_ok; eauto).
    destruct r as [u|e]; [now apply E|now apply (proj1 E)].
  - intros -> name info Hi. apply get_template_ok, E, get_template_info_ok.
    eauto.
Qed.


Lemma init_ok file (lib : PromptLibrary) :
  init file = Ok lib <-> _load_templates file cleared = (lib, Ok tt).
Proof.
  unfold init. destruct file as [| |d].
  - simpl. split; [discriminate|intros [= _ ?]; discriminate].
  - simpl. split; [discriminate|intros [= _ ?]; discriminate].
  - destruct (_load_templates (Document d) cleared) as [self [[]|e]].
    + split; intros [= <-]; reflexivity.
    + split; [discriminate|intros [= _ ?]; discriminate].
Qed.

Lemma infos_ok (lib : PromptLibrary) names :
  (forall n, In n names -> is_Some (template_metadata lib !! n)) ->
  exists l, infos lib names = Ok l /\ map fst l = names
    /\ forall n i, In (n, i) l
                   <-> In n names /\ template_metadata lib !! n = Some i.
Proof.
  induction names as [|name names IH]; intros Hall; simpl.
  - exists []. simpl. split; [reflexivity|]. split; [reflexivity|]. tauto.
  - destruct (Hall name (or_introl eq_refl)) as [info Hinfo].
    destruct IH as (l & -> & <- & Hl); [intros n Hn; apply Hall; now right|].
    unfold get_template_info. rewrite Hinfo. simpl.
    exists ((name, info) :: l). split; [reflexivity|]. split; [reflexivity|].
    intros n i. simpl. rewrite Hl. split.
    + intros [[= <- <-]|[? ?]]; auto.
    + intros [[<-|Hn] Hi]; [left; congruence|auto].
Qed.

(** X3: when the constructor returns a library for a definition source,
    [list_all_templates] on that source returns too: it never fails on a
    listed name, its names are those of [list_templates] in the same
    sorted order, and it pairs each name with the info kept for it. *)
Theorem list_all_templates_total (file : source) (lib : PromptLibrary) :
  init file = Ok lib ->
  exists l,
    list_all_templates file = Ok l
    /\ map fst l = list_templates lib None
    /\ forall name info,
         In (name, info) l <-> template_metadata lib !! name = Some info.
Proof.
  intros Hinit. unfold list_all_templates. rewrite Hinit. simpl.
  apply init_ok in Hinit.
  pose proof (reload_metadata file cleared lib (Ok tt) Hinit) as Hsame.
  simpl in Hsame.
  destruct (infos_ok lib (list_templates lib None)) as (l & Hl & Hnames & Hin).
  { intros n Hn. apply Hsame. unfold list_templates in Hn.
    now rewrite In_sorted, In_keys in Hn. }
  exists l. split; [exact Hl|]. split; [exact Hnames|].
  intros name info. rewrite Hin. split; [tauto|]. intros Hi. split; [|exact Hi].
  unfold list_templates. rewrite In_sorted, In_keys. apply Hsame. eauto.
Qed.

(** The [categories] dict after the loop over the names [l]. *)
Lemma foldl_add_to_category l : forall acc c,
  foldl add_to_category acc l !! c
  = match List.filter (fun n => String.eqb (category_of n) c) l with
    | [] => acc !! c
    | names => Some (default [] (acc !! c) ++ names)%list
    end.
Proof.
  induction l as [|n l IH]; intros acc c; simpl; [reflexivity|].
  rewrite IH. unfold add_to_category.
  destruct (String.eqb_spec (category_of n) c) as [->|Hne].
  - rewrite lookup_insert_eq. simpl.
    destruct (List.filter _ l); [reflexivity|].
    now rewrite <- app_assoc.
  - now rewrite lookup_insert_ne.
Qed.

Lemma startswith_category_of name : startswith (category_of name) name = true.
Proof.
  induction name as [|c r IH]; simpl; [reflexivity|].
  destruct (Ascii.eqb c "_"); simpl; [reflexivity|].
  now rewrite Ascii.eqb_refl, IH.
Qed.

Lemma map_fmap {A B} (f : A -> B) (l : list A) : map f l = f <$> l.
Proof. induction l as [|a l IH]; simpl; [reflexivity|now rewrite IH]. Qed.

(** The names grouped under [c]. *)
Lemma In_list_categories (self : PromptLibrary) c names :
  In (c, names) (list_categories self)
  <-> List.filter (fun n => String.eqb (category_of n) c) (keys self) <> []
      /\ names = sorted (List.filter (fun n => String.eqb (category_of n) c)
                           (keys self)).
Proof.
  unfold list_categories.
  set (cats := foldl add_to_category ∅ (keys self)).
  assert (forall k, cats !! k
          = match List.filter (fun n => String.eqb (category_of n) k) (keys self) with
            | [] => None
            | l => Some l
            end) as Hcats.
  { intros k. subst cats. rewrite foldl_add_to_category, lookup_empty.
    now destruct (List.filter _ (keys self)). }
  rewrite in_map_iff. split.
  - intros (k & [= <- <-] & Hk).
    rewrite In_sorted, map_fmap, <- list_elem_of_In, list_elem_of_fmap in Hk.
    destruct Hk as ([k' v] & -> & Hkv). apply elem_of_map_to_list in Hkv.
    simpl in *. rewrite Hkv. rewrite Hcats in Hkv.
    destruct (List.filter _ (keys self)); [discriminate|].
    injection Hkv as <-. simpl. split; [discriminate|reflexivity].
  - intros [Hne ->]. exists c. rewrite Hcats.
    destruct (List.filter _ (keys self)) as [|n l] eqn:Ef; [congruence|].
    split; [reflexivity|].
    rewrite In_sorted, map_fmap, <- list_elem_of_In, list_elem_of_fmap.
    exists (c, n :: l). split; [reflexivity|].
    apply elem_of_map_to_list. now rewrite Hcats, Ef.
Qed.

(** X4: [list_categories] partitions the loaded names by the text before
    their first underscore.  The category names come in lexicographic
    order without repetition; the group of a category is not empty, is
    sorted, and holds exactly the loaded names of that category; every
    loaded name has its group. *)
Theorem list_categories_partition (self : PromptLibrary) :
  Sorted String.le (map fst (list_categories self))
  /\ NoDup (map fst (list_categories self))
  /\ (forall c names, In (c, names) (list_categories self) ->
        names <> [] /\ Sorted String.le names /\ NoDup names
        /\ forall n, In n names
                     <-> is_Some (templates self !! n) /\ category_of n = c)
  /\ (forall n, is_Some (templates self !! n) ->
        exists names, In (category_of n, names) (list_categories self)
                      /\ In n names).
Proof.
  assert (map fst (list_categories self)
          = sorted (map fst (map_to_list
                      (foldl add_to_category ∅ (keys self))))) as Hfst.
  { unfold list_categories. rewrite map_map. simpl. apply map_id. }
  split; [rewrite Hfst; apply Sorted_sorted|].
  split; [rewrite Hfst, map_fmap; apply NoDup_sorted, NoDup_fst_map_to_list|].
  split.
  - intros c names [Hne ->]%In_list_categories.
    split.
    { intros Hnil. apply Hne.
      destruct (List.filter _ (keys self)) as [|n l]; [reflexivity|].
      assert (In n (sorted (n :: l))) as Hn by (rewrite In_sorted; now left).
      rewrite Hnil in Hn. destruct Hn. }
    split; [apply Sorted_sorted|].
    split.
    { apply NoDup_sorted, NoDup_ListNoDup, List.NoDup_filter.
      apply NoDup_ListNoDup, NoDup_keys. }
    intros n. rewrite In_sorted, filter_In, In_keys, String.eqb_eq. tauto.
  - intros n Hn.
    exists (sorted (List.filter (fun m => String.eqb (category_of m) (category_of n))
                      (keys self))).
    assert (In n (List.filter (fun m => String.eqb (category_of m) (category_of n))
                    (keys self))) as Hin.
    { apply filter_In. rewrite In_keys, String.eqb_refl. tauto. }
    split; [|now rewrite In_sorted].
    apply In_list_categories. split; [|reflexivity].
    intros Hnil. rewrite Hnil in Hin. destruct Hin.
Qed.

(** X5: the group that [list_categories] gives for a lower-case category
    is contained in what [list_templates] returns for that category; the
    prefix filter can only add names of longer categories. *)
Theorem category_group_is_listed (self : PromptLibrary) (c : string)
    (names : list string) (n : string) :
  In (c, names) (list_categories self) ->
  lower c = c ->
  In n names ->
  In n (list_templates self (Some c)).
Proof.
  intros [_ ->]%In_list_categories Hc Hn.
  rewrite In_sorted, filter_In in Hn. destruct Hn as [Hk Hcat].
  apply String.eqb_eq in Hcat. unfold list_templates.
  destruct (is_empty c); simpl; rewrite In_sorted; [exact Hk|].
  apply filter_In. split; [exact Hk|].
  rewrite Hc, <- Hcat. apply startswith_category_of.
Qed.

Lemma dict_has_elem_of {V} (k : string) (d : dict V) :
  dict_has k d = true <-> k ∈ (list_to_set (map fst d) : gset string).
Proof.
  unfold dict_has.
  rewrite elem_of_list_to_set, list_elem_of_In, existsb_exists, in_map_iff.
  split.
  - intros ([k' v] & Hin & ->%String.eqb_eq). exists (k', v). auto.
  - intros ([k' v] & <- & Hin). exists (k', v). simpl.
    now rewrite String.eqb_refl.
Qed.

Lemma str_members_elem_of l declared (v : string) :
  str_members l = Some declared ->
  v ∈ (list_to_set declared : gset string) <-> In v declared.
Proof. intros _. now rewrite elem_of_list_to_set, list_elem_of_In. Qed.

(** X6: for a template whose info declares its input variables as a list
    of names, [PromptLibrary.validate_variables] returns [True] exactly
    when every declared name is a key of the binding, and otherwise
    raises with exactly the declared names that are absent.  Keys that
    are not declared and the values of the binding play no part. *)
Theorem library_validate_reports_absent_names (self : PromptLibrary)
    (name : string) (variables : dict value) (l : list json)
    (declared : list string) :
  get_input_variables self name = Ok (JList l) ->
  str_members l = Some declared ->
  (validate_variables self name variables = AllProvided
   /\ forall v, In v declared -> dict_has v variables = true)
  \/ (exists missing,
        validate_variables self name variables = MissingVariables missing
        /\ (exists v, In v declared /\ dict_has v variables = false)
        /\ forall v, v ∈ missing
                     <-> In v declared /\ dict_has v variables = false).
Proof.
  intros Hvars Hl. unfold validate_variables. rewrite Hvars. simpl.
  rewrite Hl. simpl.
  set (required := (list_to_set declared : gset string)).
  set (provided := (list_to_set (map fst variables) : gset string)).
  assert (forall v, v ∈ required ∖ provided
                    <-> In v declared /\ dict_has v variables = false) as Hm.
  { intros v. rewrite elem_of_difference.
    subst required provided. rewrite elem_of_list_to_set, list_elem_of_In.
    rewrite <- dict_has_elem_of. destruct (dict_has v variables); split;
      intros [? ?]; split; congruence. }
  destruct (decide (required ∖ provided = ∅)) as [He|Hne].
  - left. split; [reflexivity|]. intros v Hv.
    destruct (dict_has v variables) eqn:E; [reflexivity|].
    assert (v ∈ required ∖ provided) as Hin by now apply Hm.
    rewrite He in Hin. now apply not_elem_of_empty in Hin.
  - right. exists (required ∖ provided). split; [reflexivity|].
    split; [|exact Hm].
    apply set_choose_L in Hne as [v Hv]. exists v. now apply Hm.
Qed.




End Queries.

Lemma list_all_templates_total_witness :
  init (H := Example.externals) Example2.blog_source = Ok Example2.blog_library
  /\ exists l,
       list_all_templates (H := Example.externals) Example2.blog_source = Ok l
       /\ map fst l
          = list_templates (H := Example.externals) Example2.blog_library None
       /\ forall name info,
            In (name, info) l
            <-> template_metadata Example2.blog_library !! name = Some info.
Proof.
  split; [reflexivity|].
  apply (list_all_templates_total (H := Example.externals)
           Example2.blog_source Example2.blog_library).
  reflexivity.
Defined.

Lemma category_group_is_listed_witness :
  In ("sentiment", ["sentiment_v1"; "sentiment_v3"])
     (list_categories (H := Example.externals) Example.first_library)
  /\ lower "sentiment" = "sentiment"
  /\ In "sentiment_v3" ["sentiment_v1"; "sentiment_v3"]
  /\ In "sentiment_v3"
        (list_templates (H := Example.externals) Example.first_library
           (Some "sentiment")).
Proof.
  assert (In ("sentiment", ["sentiment_v1"; "sentiment_v3"])
            (list_categories (H := Example.externals) Example.first_library))
    as Hg.
  { replace (list_categories (H := Example.externals) Example.first_library)
      with [("sentiment", ["sentiment_v1"; "sentiment_v3"]);
            ("sentimental", ["sentimental_v1"]); ("support", ["support_v1"])]
      by reflexivity.
    now left. }
  assert (In "sentiment_v3" ["sentiment_v1"; "sentiment_v3"]) as Hn
    by (right; left; reflexivity).
  split; [exact Hg|]. split; [reflexivity|]. split; [exact Hn|].
  exact (category_group_is_listed (H := Example.externals)
           Example.first_library "sentiment" _ "sentiment_v3" Hg eq_refl Hn).
Defined.

Lemma library_validate_reports_absent_names_witness :
  get_input_variables (H := Example.externals) Example2.blog_library "blog_v1"
    = Ok (JList [JStr "topic"; JStr "tone"])
  /\ str_members [JStr "topic"; JStr "tone"] = Some ["topic"; "tone"]
  /\ ((validate_variables (H := Example.externals) Example2.blog_library
         "blog_v1" [("tone", VStr ""); ("length", VStr "short")] = AllProvided
       /\ forall v, In v ["topic"; "tone"] ->
            dict_has v [("tone", VStr ""); ("length", VStr "short")] = true)
      \/ exists missing,
           validate_variables (H := Example.externals) Example2.blog_library
             "blog_v1" [("tone", VStr ""); ("length", VStr "short")]
             = MissingVariables missing
           /\ (exists v, In v ["topic"; "tone"]
                 /\ dict_has v [("tone", VStr ""); ("length", VStr "short")]
                    = false)
           /\ forall v, v ∈ missing
                <-> In v ["topic"; "tone"]
                    /\ dict_has v [("tone", VStr ""); ("length", VStr "short")]
                       = false).
Proof.
  split; [reflexivity|]. split; [reflexivity|].
  apply (library_validate_reports_absent_names (H := Example.externals)
           Example2.blog_library "blog_v1"
           [("tone", VStr ""); ("length", VStr "short")]
           [JStr "topic"; JStr "tone"] ["topic"; "tone"]);
    reflexivity.
Defined.



End LibraryQueriesFacts.

(** ** Further properties of the validators, the orchestrator and the flows *)

Module PipelineFacts.
Import PyStr PyStrFacts OutputValidator OutputValidatorFacts.
Import PromptTemplates AdvancedPromptSystem AdvancedPromptSystemFacts Menu.

Lemma sapp_nil_r s : s +:+ "" = s.
Proof. induction s as [|c r IH]; simpl; [reflexivity|now rewrite IH]. Qed.

Lemma sapp_assoc a b c : (a +:+ b) +:+ c = a +:+ b +:+ c.
Proof. induction a as [|x r IH]; simpl; [reflexivity|now rewrite IH]. Qed.

Lemma part_of_refl s : part_of s s.
Proof. exists "", "". simpl. now rewrite sapp_nil_r. Qed.

Lemma part_of_trans u t s : part_of u t -> part_of t s -> part_of u s.
Proof.
  intros (b1 & a1 & ->) (b2 & a2 & ->).
  exists (b2 +:+ b1), (a1 +:+ a2). now rewrite !sapp_assoc.
Qed.

Lemma part_of_suffix before t : part_of t (before +:+ t).
Proof. exists before, "". now rewrite sapp_nil_r. Qed.

Lemma part_of_prefix t after : part_of t (t +:+ after).
Proof. exists "", after. reflexivity. Qed.

Lemma lstrip_suffix s : exists before, s = before +:+ lstrip s.
Proof.
  induction s as [|c r [before IH]]; simpl; [now exists ""|].
  destruct (isspace c); [|now exists ""].
  exists (String c before). simpl. now rewrite <- IH.
Qed.

Lemma rstrip_prefix s : exists after, s = rstrip s +:+ after.
Proof.
  induction s as [|c r [after IH]]; simpl; [now exists ""|].
  destruct (is_empty (rstrip r) && isspace c).
  - now exists (String c r).
  - exists after. simpl. now rewrite <- IH.
Qed.

Lemma slice_from_suffix n : forall s, exists before, s = before +:+ slice_from n s.
Proof.
  induction n as [|n IH]; intros s; simpl; [now exists ""|].
  destruct s as [|c r]; [now exists ""|].
  destruct (IH r) as [before Hb]. exists (String c before). simpl.
  now rewrite <- Hb.
Qed.

Lemma slice_to_prefix n : forall s, exists after, s = slice_to n s +:+ after.
Proof.
  induction n as [|n IH]; intros s; simpl; [now exists s|].
  destruct s as [|c r]; [now exists ""|].
  destruct (IH r) as [after Ha]. exists after. simpl. now rewrite <- Ha.
Qed.

Lemma part_of_strip s : part_of (strip s) s.
Proof.
  unfold strip. destruct (rstrip_prefix s) as [after Ha].
  destruct (lstrip_suffix (rstrip s)) as [before Hb].
  apply part_of_trans with (rstrip s).
  - rewrite Hb at 2. apply part_of_suffix.
  - rewrite Ha at 2. apply part_of_prefix.
Qed.

(** X8: cleaning only removes text from the two ends.  For every reply,
    the cleaned text is a contiguous part of the reply, is no longer
    than it, and has no whitespace left to trim. *)
Theorem clean_keeps_a_part (s : string) :
  part_of (clean_json_response s) s
  /\ String.length (clean_json_response s) <= String.length s
  /\ strip (clean_json_response s) = clean_json_response s.
Proof.
  split; [|split; [|apply clean_stripped]].
  - unfold clean_json_response.
    set (r0 := strip s).
    set (r1 := if startswith json_fence r0 then slice_from 7 r0
               else if startswith fence r0 then slice_from 3 r0 else r0).
    set (r2 := if endswith fence r1 then slice_drop_last 3 r1 else r1).
    assert (part_of r1 r0) as H1.
    { subst r1. destruct (startswith json_fence r0);
        [|destruct (startswith fence r0)]; try apply part_of_refl.
      - destruct (slice_from_suffix 7 r0) as [b Hb]. rewrite Hb at 2.
        apply part_of_suffix.
      - destruct (slice_from_suffix 3 r0) as [b Hb]. rewrite Hb at 2.
        apply part_of_suffix. }
    assert (part_of r2 r1) as H2.
    { subst r2. destruct (endswith fence r1); [|apply part_of_refl].
      unfold slice_drop_last.
      destruct (slice_to_prefix (String.length r1 - 3) r1) as [a Ha].
      rewrite Ha at 3. apply part_of_prefix. }
    eapply part_of_trans; [apply part_of_strip|].
    eapply part_of_trans; [exact H2|].
    eapply part_of_trans; [exact H1|apply part_of_strip].
  - unfold clean_json_response.
    set (r0 := strip s).
    set (r1 := if startswith json_fence r0 then slice_from 7 r0
               else if startswith fence r0 then slice_from 3 r0 else r0).
    set (r2 := if endswith fence r1 then slice_drop_last 3 r1 else r1).
    pose proof (length_strip s). pose proof (length_strip r2).
    assert (String.length r1 <= String.length r0).
    { subst r1. destruct (startswith json_fence r0);
        [|destruct (startswith fence r0)];
        rewrite ?length_slice_from; lia. }
    assert (String.length r2 <= String.length r1).
    { subst r2. destruct (endswith fence r1);
        rewrite ?length_slice_drop_last; lia. }
    fold r0 in H. lia.
Qed.

Lemma clean_of_unfenced c :
  startswith fence (strip c) = false -> endswith fence (strip c) = false ->
  clean_json_response c = strip c.
Proof.
  intros Hp He.
  assert (clean_json_response c = clean_json_response (strip c)) as ->
    by (unfold clean_json_response; now rewrite strip_idem).
  apply clean_fixed; [apply strip_idem|assumption..].
Qed.

Section System.
Context `{Externals}.

(** X9: a reply wrapped in a json-tagged fence validates exactly as the
    same reply without the fence, for every list of required fields,
    when the trimmed content has no further fence marker at its ends. *)
Theorem validate_json_ignores_json_fence (c : string)
    (required_fields : option (list string)) :
  startswith fence (strip c) = false ->
  endswith fence (strip c) = false ->
  validate_json (fenced "json" c) required_fields
  = validate_json c required_fields.
Proof.
  intros Hp He. unfold validate_json.
  now rewrite clean_json_fenced, (clean_of_unfenced c Hp He).
Qed.

(** The list built by the field check. *)
Lemma missing_in_spec data fields : forall missing,
  missing_in data fields = Ok missing ->
  (forall f, In f missing <-> In f fields /\ py_in f data = Ok false)
  /\ (forall f, In f fields -> exists b, py_in f data = Ok b).
Proof.
  induction fields as [|g fields IH]; intros missing; simpl.
  - intros [= <-]. split; [simpl; tauto|intros f []].
  - unfold bind. destruct (py_in g data) as [present|] eqn:Hg; [|discriminate].
    destruct (missing_in data fields) as [rest|] eqn:Hr; [|discriminate].
    destruct (IH rest eq_refl) as [Hin Hex].
    intros [= <-]. split.
    + intros f. destruct present; simpl; rewrite Hin.
      * split; [tauto|]. intros [[<-|Hf] Hp]; [congruence|tauto].
      * split; [intros [<-|[? ?]]; tauto|].
        intros [[<-|Hf] Hp]; tauto.
    + intros f [<-|Hf]; eauto.
Qed.

Lemma validate_json_ok response required_fields data :
  validate_json response required_fields = Ok data ->
  json_loads (clean_json_response response) = Some data
  /\ forall fields f, required_fields = Some fields -> In f fields ->
       py_in f data = Ok true.
Proof.
  unfold validate_json.
  destruct (json_loads (clean_json_response response)) as [d|]; [|discriminate].
  destruct required_fields as [[|g fields]|].
  - intros [= <-]. split; [reflexivity|]. intros ? f [= <-] [].
  - unfold bind.
    destruct (missing_in d (g :: fields)) as [missing|] eqn:Hm; [|discriminate].
    destruct missing as [|m missing]; simpl; [|discriminate].
    intros [= <-]. split; [reflexivity|]. intros ? f [= <-] Hf.
    destruct (missing_in_spec d (g :: fields) [] Hm) as [Hin Hex].
    destruct (Hex f Hf) as [[|] Hb]; [exact Hb|].
    destruct (proj2 (Hin f) (conj Hf Hb)).
  - intros [= <-]. split; [reflexivity|]. intros ? f [=].
Qed.

(** X10: what a caller can rely on in a result of [generate] with output
    validation.  Either the status is passed, the parsed document is
    present and is the parse of the cleaned reply, and every required
    field is in it; or the status is failed and no parsed document is
    present.  The reply text is in the result in both cases. *)
Theorem validated_result_is_consistent (self : System) (backend : Backend)
    (template_name : string) (variables : dict value) (config_name : string)
    (required_output_fields : option (list string)) (r : Result) :
  generate self backend template_name variables config_name true
    required_output_fields = Ok r ->
  (validation_status (metadata r) = Some Passed
   /\ exists data,
        parsed_json r = Some data
        /\ json_loads (clean_json_response (response r)) = Some data
        /\ forall fields f, required_output_fields = Some fields ->
             In f fields -> py_in f data = Ok true)
  \/ (exists msg, validation_status (metadata r) = Some (Failed msg)
                  /\ parsed_json r = None).
Proof.
  unfold generate, bind.
  destruct (get_template _ _) as [tpl|]; [|discriminate].
  destruct (template_bool tpl); simpl; [|discriminate].
  destruct (InputValidator.validate_variables _ _); [|discriminate].
  destruct (format_messages _ _) as [messages|]; [|discriminate].
  destruct (invoke _ _ _ _) as [text|]; [|discriminate].
  unfold validated; simpl.
  destruct (validate_json text required_output_fields)
    as [parsed|[msg| | | | | | | |]] eqn:Hv; try discriminate;
    intros [= <-]; simpl; [|eauto].
  left. split; [reflexivity|]. exists parsed.
  apply validate_json_ok in Hv as [Hl Hf]. auto.
Qed.

(** X11: the backend is reached only after the template was found, the
    binding passed the input validator and the messages were formatted:
    unless all of that succeeded, [generate] gives the same outcome
    whatever the backend would answer. *)
Theorem backend_reached_only_after_checks (self : System)
    (backend1 backend2 : Backend) (template_name : string)
    (variables : dict value) (config_name : string) (validate_output : bool)
    (required_output_fields : option (list string)) :
  generate self backend1 template_name variables config_name validate_output
    required_output_fields
  = generate self backend2 template_name variables config_name validate_output
      required_output_fields
  \/ exists tpl messages,
       get_template (prompt_library self) template_name = Ok tpl
       /\ template_bool tpl = true
       /\ InputValidator.validate_variables variables (input_variables tpl)
          = Ok variables
       /\ format_messages tpl variables = Ok messages.
Proof.
  unfold generate, bind.
  destruct (get_template _ _) as [tpl|]; [|now left].
  destruct (template_bool tpl) eqn:Hb; simpl; [|now left].
  destruct (InputValidator.validate_variables variables (input_variables tpl))
    as [v|] eqn:Hv; [|now left].
  destruct (format_messages tpl variables) as [messages|] eqn:Hf; [|now left].
  assert (v = variables) as ->.
  { revert Hv. unfold InputValidator.validate_variables, bind.
    destruct (negb _); [discriminate|]. destruct (negb _); [discriminate|].
    destruct (InputValidator.check_injection variables); [|discriminate].
    now intros [= <-]. }
  right. exists tpl, messages. repeat split; assumption || reflexivity.
Qed.


Lemma generate_validated_has_status self backend template_name variables
    config_name required_output_fields r :
  generate self backend template_name variables config_name true
    required_output_fields = Ok r ->
  is_Some (validation_status (metadata r)).
Proof.
  unfold generate, bind.
  destruct (get_template _ _) as [tpl|]; [|discriminate].
  destruct (template_bool tpl); simpl; [|discriminate].
  destruct (InputValidator.validate_variables _ _); [|discriminate].
  destruct (format_messages _ _) as [messages|]; [|discriminate].
  destruct (invoke _ _ _ _) as [text|]; [|discriminate].
  intros Hv. apply validated_keeps_response in Hv as [_ [status ->]]. eauto.
Qed.

(** What a returned result of [ab_test] holds. *)
Lemma ab_test_ok (self : System) (backend : Backend)
    (user base_template : string) (variables : dict value)
    (versions : list string) (config_name : string) (r : Result) :
  ab_test self backend user base_template variables versions config_name
  = Ok r ->
  exists info idx,
    ab_test_info r = Some info
    /\ user_id info = user
    /\ idx < length versions
    /\ versions !! idx = Some (assigned_version info)
    /\ test_group info = (65 + Z.of_nat idx)%Z
    /\ template (metadata r) = base_template +:+ "_" +:+ assigned_version info
    /\ is_Some (validation_status (metadata r)).
Proof.
  unfold ab_test, bind.
  destruct (assign user versions) as [[version_idx assigned]|] eqn:Ha;
    [|discriminate]. simpl.
  destruct (generate _ _ _ _ _ _ _) as [result|] eqn:Hg; [|discriminate].
  destruct (chr _) as [group|] eqn:Hc; [|discriminate].
  intros [= <-]. simpl.
  unfold assign in Ha. destruct versions as [|v0 vs] eqn:Ev; [discriminate|].
  rewrite <- Ev in *.
  assert (0 < Z.of_nat (length versions))%Z as Hlen by (subst; simpl; lia).
  pose proof (Z.mod_pos_bound (hash user) _ Hlen) as Hidx.
  destruct (versions !! Z.to_nat _) as [a|] eqn:Hl; [|discriminate].
  injection Ha as <- <-.
  unfold chr in Hc. destruct (_ && _)%Z; [|discriminate].
  injection Hc as <-.
  eexists _, (Z.to_nat (hash user `mod` Z.of_nat (length versions))).
  split; [reflexivity|]. simpl. split; [reflexivity|].
  split; [apply lookup_lt_Some in Hl; exact Hl|].
  split; [exact Hl|]. split; [now rewrite Z2Nat.id by lia|].
  split; [now apply generate_metadata in Hg as [-> _]|].
  now apply generate_validated_has_status in Hg.
Qed.

(** X13: the test group of [ab_test] names the position of the assigned
    variant.  With no variant the call raises [ZeroDivisionError] before
    anything else; a result that is returned carries the user id it was
    called with, an assigned version that stands in the variant list at
    the position counted from the letter A by the test group, and a
    validation status. *)
Theorem ab_test_group_names_position (self : System) (backend : Backend)
    (user base_template : string) (variables : dict value)
    (versions : list string) (config_name : string) :
  (versions = [] ->
     ab_test self backend user base_template variables versions config_name
     = Raise ZeroDivisionError)
  /\ forall r,
       ab_test self backend user base_template variables versions config_name
       = Ok r ->
       exists info idx,
         ab_test_info r = Some info
         /\ user_id info = user
         /\ idx < length versions
         /\ versions !! idx = Some (assigned_version info)
         /\ test_group info = (65 + Z.of_nat idx)%Z
         /\ is_Some (validation_status (metadata r)).
Proof.
  split; [intros ->; reflexivity|].
  intros r Hr.
  destruct (ab_test_ok _ _ _ _ _ _ _ _ Hr)
    as (info & idx & ? & ? & ? & ? & ? & _ & ?).
  exists info, idx. auto 10.
Qed.

Lemma stripped_or_not_blank default line :
  all_whitespace default = false ->
  all_whitespace (stripped_or default line) = false.
Proof.
  intros Hd. unfold stripped_or.
  destruct (is_empty (strip line)) eqn:E; [exact Hd|].
  now rewrite <- strip_empty, strip_idem.
Qed.

(** X14: whatever is typed at the config prompt, [get_config_choice]
    returns the name of a preset of [CONFIGS], so the fallback of
    [generate] for unknown names is never needed for it; a blank line or
    an unknown choice gives the balanced preset. *)
Theorem menu_config_is_a_preset (line : string) :
  exists cfg,
    CONFIGS !! get_config_choice line = Some cfg
    /\ resolve_config (get_config_choice line) = cfg
    /\ (all_whitespace line = true -> get_config_choice line = "balanced")
    /\ (config_map !! strip line = None -> get_config_choice line = "balanced").
Proof.
  assert (forall name, In name ["factual"; "balanced"; "creative"] ->
            exists cfg, CONFIGS !! name = Some cfg
                        /\ resolve_config name = cfg) as Hknown.
  { intros name [<-|[<-|[<-|[]]]]; eexists; split; reflexivity. }
  assert (In (get_config_choice line) ["factual"; "balanced"; "creative"]) as Hin.
  { unfold get_config_choice, config_map.
    generalize (stripped_or "2" line). intros choice.
    rewrite !lookup_insert, lookup_empty.
    repeat case_decide; simpl; tauto. }
  destruct (Hknown _ Hin) as (cfg & Hc & Hr).
  exists cfg. split; [exact Hc|]. split; [exact Hr|]. split.
  - intros Hb. unfold get_config_choice, stripped_or.
    now rewrite strip_empty, Hb.
  - intros Hn. unfold get_config_choice, stripped_or.
    destruct (is_empty (strip line)); [reflexivity|]. now rewrite Hn.
Qed.

(** X15: the flows never hand a blank value to the input validator:
    whatever is typed at the prompts, every value of the binding that
    [customer_support_flow] or [sentiment_analysis_flow] builds has text
    left after trimming, so the empty-value check passes. *)
Theorem flow_bindings_have_no_blank_value
    (template_line config_line text_line tier_line issues_line : string) :
  InputValidator.empty_fields
    (variables (customer_support_request template_line config_line text_line
                  tier_line issues_line)) = []
  /\ InputValidator.empty_fields
       (variables (sentiment_analysis_request template_line config_line
                     text_line)) = [].
Proof.
  unfold customer_support_request, sentiment_analysis_request,
    InputValidator.empty_fields.
  cbn [variables].
  split; [destruct (among _ _)|];
    cbn [List.filter snd str fst map];
    rewrite !strip_empty, !stripped_or_not_blank by reflexivity;
    reflexivity.
Qed.

(** X16: a flow asks for output validation exactly when it names
    required output fields, and the list it names is never empty. *)
Theorem flow_validation_matches_fields
    (template_line config_line text_line tier_line issues_line : string) :
  let support :=
    customer_support_request template_line config_line text_line tier_line
      issues_line in
  let sentiment :=
    sentiment_analysis_request template_line config_line text_line in
  (should_validate support = true <-> is_Some (required_fields support))
  /\ (should_validate sentiment = true <-> is_Some (required_fields sentiment))
  /\ required_fields support <> Some []
  /\ required_fields sentiment <> Some [].
Proof.
  cbv zeta. unfold customer_support_request, sentiment_analysis_request.
  cbn [should_validate required_fields among existsb].
  generalize (get_template_choice "support" template_line) as t1.
  generalize (get_template_choice "sentiment" template_line) as t2.
  intros t2 t1.
  destruct (String.eqb t1 "support_v3");
    destruct (String.eqb t2 "sentiment_v2");
    destruct (String.eqb t2 "sentiment_v3"); simpl;
    repeat split; try discriminate; eauto; intros [? [=]].
Qed.

(** X17: whatever is typed at its prompts, a result of the A/B flow is
    for version v2 in group A with template [sentiment_v2], or for
    version v3 in group B with template [sentiment_v3]. *)
Theorem ab_flow_splits_between_v2_and_v3 (self : System) (backend : Backend)
    (user_line text_line config_line : string) (r : Result) :
  ab_testing_call self backend user_line text_line config_line = Ok r ->
  exists info,
    ab_test_info r = Some info
    /\ ((assigned_version info = "v2" /\ test_group info = 65%Z
         /\ template (metadata r) = "sentiment_v2")
        \/ (assigned_version info = "v3" /\ test_group info = 66%Z
            /\ template (metadata r) = "sentiment_v3")).
Proof.
  unfold ab_testing_call. intros Hr.
  destruct (ab_test_ok _ _ _ _ _ _ _ _ Hr)
    as (info & idx & Hi & _ & Hlt & Hv & Hg & Ht & _).
  exists info. split; [exact Hi|]. rewrite Ht, Hg.
  destruct idx as [|[|idx]]; simpl in Hlt, Hv; [| |lia].
  - injection Hv as <-. left. auto.
  - injection Hv as <-. right. auto.
Qed.

End System.

End PipelineFacts.

Module PipelineExamples.
Import PyStr OutputValidator.
Import PromptTemplates AdvancedPromptSystem Menu PipelineFacts.

Lemma validate_json_ignores_json_fence_witness :
  startswith fence (strip (nl +:+ Example2.sentiment_reply +:+ nl)) = false
  /\ endswith fence (strip (nl +:+ Example2.sentiment_reply +:+ nl)) = false
  /\ validate_json (H := Example2.externals)
       (fenced "json" (nl +:+ Example2.sentiment_reply +:+ nl))
       (Some ["sentiment"])
     = validate_json (H := Example2.externals)
         (nl +:+ Example2.sentiment_reply +:+ nl) (Some ["sentiment"]).
Proof.
  split; [reflexivity|]. split; [reflexivity|].
  apply (validate_json_ignores_json_fence (H := Example2.externals));
    reflexivity.
Defined.

Lemma validated_result_is_consistent_witness :
  exists r,
    generate (H := Example2.externals) Example2.system
      (Example2.replies Example2.sentiment_reply) "sentiment_v3"
      [("text", VStr "I love it!")] "factual" true (Some ["sentiment"]) = Ok r
    /\ ((validation_status (metadata r) = Some Passed
         /\ exists data,
              parsed_json r = Some data
              /\ json_loads (Externals := Example2.externals)
                   (clean_json_response (response r)) = Some data
              /\ forall fields f, Some ["sentiment"] = Some fields ->
                   In f fields -> py_in f data = Ok true)
        \/ exists msg, validation_status (metadata r) = Some (Failed msg)
                       /\ parsed_json r = None).
Proof.
  eexists. split; [reflexivity|].
  apply (validated_result_is_consistent (H := Example2.externals)
           Example2.system (Example2.replies Example2.sentiment_reply)
           "sentiment_v3" [("text", VStr "I love it!")] "factual"
           (Some ["sentiment"])).
  reflexivity.
Defined.


Lemma ab_flow_splits_between_v2_and_v3_witness :
  exists r,
    ab_testing_call (H := Example2.externals) Example2.system
      (Example2.replies "null") "" "" "" = Ok r
    /\ exists info,
         ab_test_info r = Some info
         /\ ((assigned_version info = "v2" /\ test_group info = 65%Z
              /\ template (metadata r) = "sentiment_v2")
             \/ (assigned_version info = "v3" /\ test_group info = 66%Z
                 /\ template (metadata r) = "sentiment_v3")).
Proof.
  eexists. split; [reflexivity|].
  apply (ab_flow_splits_between_v2_and_v3 (H := Example2.externals)
           Example2.system (Example2.replies "null") "" "" "").
  reflexivity.
Defined.

End PipelineExamples.
